(** * dog_food_advice: barcode normalisation, nutrition lookup and the
      submission pipeline

    A shallow embedding of [backend_functions.py] and of the submission
    handler of [streamline.py].

    - Python [str] values are lists of Unicode code points.
    - Calls into libraries (PIL, pyzbar, requests, pandas, the generative
      model, the file system) are answered by an environment record of
      oracles; what the program does to the outside (prints, UI calls, HTTP
      requests, log records, temporary files) is recorded in a world state.
    - Python exceptions are values of an error monad over that state. *)

From Stdlib Require Import List String Ascii Strings.Byte ZArith NArith Bool Lia.
From Stdlib Require Import DecimalString.
From Stdlib Require Import Floats.SpecFloat.
Import ListNotations.

(* ================================================================== *)
(** ** Python strings *)

Module Py.

(** A code point. *)
Definition char := N.

(** A Python [str]. *)
Definition str := list char.

(** A literal of the source, which is ASCII throughout. *)
Definition lit (s : string) : str :=
  List.map N_of_ascii (list_ascii_of_string s).

Definition str_eqb (a b : str) : bool :=
  if list_eq_dec N.eq_dec a b then true else false.

(** [bool(s)]: a string is true when it is not empty. *)
Definition truthy (s : str) : bool :=
  match s with [] => false | _ :: _ => true end.

(** [c in chars] for a single character. *)
Definition char_in (c : char) (chars : str) : bool :=
  existsb (N.eqb c) chars.

(** [s.lstrip(chars)]: drop leading characters that occur in [chars]. *)
Fixpoint lstrip (chars s : str) : str :=
  match s with
  | [] => []
  | c :: t => if char_in c chars then lstrip chars t else s
  end.

(** [s.startswith(p)]. *)
Fixpoint startswith (p s : str) : bool :=
  match p, s with
  | [], _ => true
  | _ :: _, [] => false
  | a :: p', b :: s' => N.eqb a b && startswith p' s'
  end.

(** [sub in s]: substring test. *)
Fixpoint contains (sub s : str) : bool :=
  startswith sub s ||
  match s with
  | [] => false
  | _ :: t => contains sub t
  end.

(** [s.replace(old, new)]: the occurrences of [old] are replaced from
    left to right and do not overlap.  [skip] counts the characters of a
    matched occurrence still to be dropped. *)
Fixpoint replace_from (old new s : str) (skip : nat) : str :=
  match s with
  | [] => []
  | c :: t =>
      match skip with
      | S k => replace_from old new t k
      | O =>
          if startswith old s
          then new ++ replace_from old new t (List.length old - 1)
          else c :: replace_from old new t 0
      end
  end.

Definition replace (s old new : str) : str :=
  match old with
  | [] => new ++ flat_map (fun c => c :: new) s
  | _ :: _ => replace_from old new s 0
  end.

(** [s.split(sep)] for a separator of one character. *)
Fixpoint split (sep : char) (s : str) : list str :=
  match s with
  | [] => [[]]
  | c :: t =>
      if N.eqb c sep then [] :: split sep t
      else match split sep t with
           | [] => [[c]]
           | h :: r => (c :: h) :: r
           end
  end.

(** [sep.join(parts)]. *)
Fixpoint join (sep : str) (parts : list str) : str :=
  match parts with
  | [] => []
  | [p] => p
  | p :: rest => p ++ sep ++ join sep rest
  end.

(** [c.isspace()]. *)
Definition isspace (c : char) : bool :=
  (N.leb 9 c && N.leb c 13) || (N.leb 28 c && N.leb c 32)
  || N.eqb c 133 || N.eqb c 160 || N.eqb c 5760
  || (N.leb 8192 c && N.leb c 8202)
  || N.eqb c 8232 || N.eqb c 8233 || N.eqb c 8239 || N.eqb c 8287
  || N.eqb c 12288.

Fixpoint lstrip_space (s : str) : str :=
  match s with
  | [] => []
  | c :: t => if isspace c then lstrip_space t else s
  end.

(** [s.strip()]. *)
Definition strip (s : str) : str :=
  rev (lstrip_space (rev (lstrip_space s))).

End Py.

Notation "'py' s" := (Py.lit s%string) (at level 9, s at level 0, only parsing).

(* ================================================================== *)
(** ** Python values *)

(** Bytes objects. *)
Definition bytes := list Byte.byte.

(** [str(n)] for an [int]. *)
Definition str_of_int (z : Z) : Py.str :=
  Py.lit (NilZero.string_of_int (Z.to_int z)).

(** The exception classes the program tells apart, and the ones its
    libraries raise. *)
Inductive exc_class :=
| RequestException          (* requests: transport failures *)
| HTTPError                 (* requests: raised by raise_for_status *)
| RequestsJSONDecodeError   (* requests.exceptions.JSONDecodeError *)
| JSONDecodeError           (* json.JSONDecodeError *)
| AttributeError
| TypeError
| UnicodeDecodeError
| OtherException (name : Py.str).  (* any other subclass of Exception *)

(** An exception instance: its class and [str(e)]. *)
Record exn := { exc_cls : exc_class; exc_msg : Py.str }.

(** [isinstance(e, requests.exceptions.RequestException)]. *)
Definition is_RequestException (e : exn) : bool :=
  match exc_cls e with
  | RequestException | HTTPError | RequestsJSONDecodeError => true
  | _ => false
  end.

(** [isinstance(e, json.JSONDecodeError)]. *)
Definition is_JSONDecodeError (e : exn) : bool :=
  match exc_cls e with
  | RequestsJSONDecodeError | JSONDecodeError => true
  | _ => false
  end.

(** The outcome of a Python expression: a value, or a raised exception. *)
Inductive result (A : Type) :=
| Ok (a : A)
| Raise (e : exn).
Arguments Ok {A} a.
Arguments Raise {A} e.

(** A Python object as the normaliser and the lookup see it: an instance
    of [str], an [int], [None], or any other object, which they only ever
    pass to [str()]. *)
Inductive object :=
| OStr (s : Py.str)
| OInt (z : Z)
| ONone
| OOther (to_str : result Py.str).

(** [isinstance(o, str)]. *)
Definition isinstance_str (o : object) : bool :=
  match o with OStr _ => true | _ => false end.

(** [str(o)]. *)
Definition py_str (o : object) : result Py.str :=
  match o with
  | OStr s => Ok s
  | OInt z => Ok (str_of_int z)
  | ONone => Ok (py "None")
  | OOther r => r
  end.

(** What [json.loads] builds; [JNull] is Python's [None]. *)
#[warnings="-register-all"] Inductive json :=
| JNull
| JBool (b : bool)
| JInt (z : Z)
| JFloat (f : spec_float)
| JStr (s : Py.str)
| JList (l : list json)
| JDict (d : list (Py.str * json)).

(** The binary64 number [1.0]. *)
Definition float_one : spec_float := S754_finite false 4503599627370496 (-52).

(** [v == n] for an [int] [n]: [bool] is a subclass of [int], and a float
    compares by value. *)
Definition json_eq_int (v : json) (n : Z) : bool :=
  match v with
  | JInt z => Z.eqb z n
  | JBool b => Z.eqb (if b then 1 else 0) n
  | JFloat f =>
      if Z.eqb n 1 then SFeqb f float_one
      else if Z.eqb n 0 then SFeqb f (S754_zero false)
      else false
  | _ => false
  end.

(** [bool(v)]. *)
Definition json_truthy (v : json) : bool :=
  match v with
  | JNull => false
  | JBool b => b
  | JInt z => negb (Z.eqb z 0)
  | JFloat (S754_zero _) => false
  | JFloat _ => true
  | JStr s => Py.truthy s
  | JList l => match l with [] => false | _ => true end
  | JDict d => match d with [] => false | _ => true end
  end.

(** [d[k]] and [d.get(k)] for a dict [d]. *)
Fixpoint dict_lookup (d : list (Py.str * json)) (k : Py.str) : option json :=
  match d with
  | [] => None
  | (k', v) :: t => if Py.str_eqb k' k then Some v else dict_lookup t k
  end.

(** [k in d]. *)
Definition dict_contains (d : list (Py.str * json)) (k : Py.str) : bool :=
  match dict_lookup d k with Some _ => true | None => false end.

(** [type(v).__name__]. *)
Definition type_name (v : json) : Py.str :=
  match v with
  | JNull => py "NoneType"
  | JBool _ => py "bool"
  | JInt _ => py "int"
  | JFloat _ => py "float"
  | JStr _ => py "str"
  | JList _ => py "list"
  | JDict _ => py "dict"
  end.

(** The [AttributeError] of [v.attr] for a value without that attribute. *)
Definition no_attribute (v : json) (attr : Py.str) : exn :=
  {| exc_cls := AttributeError;
     exc_msg := py "'" ++ type_name v ++ py "' object has no attribute '"
                ++ attr ++ py "'" |}.

(** [data.get(k)]: only a dict has the method. *)
Definition json_get (data : json) (k : Py.str) : result json :=
  match data with
  | JDict d =>
      Ok (match dict_lookup d k with Some v => v | None => JNull end)
  | _ => Raise (no_attribute data (py "get"))
  end.

(** [k in data] and [data[k]], which the program reaches for a dict only. *)
Definition json_contains (data : json) (k : Py.str) : bool :=
  match data with
  | JDict d => dict_contains d k
  | JStr s => Py.contains k s
  | JList l =>
      existsb (fun v => match v with JStr s => Py.str_eqb s k | _ => false end) l
  | _ => false
  end.

Definition json_getitem (data : json) (k : Py.str) : result json :=
  match data with
  | JDict d =>
      match dict_lookup d k with
      | Some v => Ok v
      | None => Raise {| exc_cls := OtherException (py "KeyError"); exc_msg := k |}
      end
  | _ =>
      Raise {| exc_cls := TypeError;
               exc_msg := py "indices must be integers" |}
  end.

(** [data.items()]: only a dict has the method. *)
Definition json_items (data : json) : result (list (Py.str * json)) :=
  match data with
  | JDict d => Ok d
  | _ => Raise (no_attribute data (py "items"))
  end.

(** [b.decode("utf-8")], strict: the well-formed byte sequences of the
    Unicode standard (no overlong forms, no surrogates, at most U+10FFFF). *)
Definition in_range (lo hi b : N) : bool := N.leb lo b && N.leb b hi.

Definition is_cont (b : N) : bool := in_range 128 191 b.

Fixpoint utf8_points (bs : list N) : option Py.str :=
  match bs with
  | [] => Some []
  | b0 :: t =>
      if N.ltb b0 128 then option_map (cons b0) (utf8_points t)
      else if in_range 194 223 b0 then
        match t with
        | b1 :: t1 =>
            if is_cont b1
            then option_map (cons ((b0 - 192) * 64 + (b1 - 128))%N)
                            (utf8_points t1)
            else None
        | _ => None
        end
      else if in_range 224 239 b0 then
        match t with
        | b1 :: b2 :: t2 =>
            if in_range (if N.eqb b0 224 then 160 else 128)
                        (if N.eqb b0 237 then 159 else 191) b1
               && is_cont b2
            then option_map
                   (cons ((b0 - 224) * 4096 + (b1 - 128) * 64 + (b2 - 128))%N)
                   (utf8_points t2)
            else None
        | _ => None
        end
      else if in_range 240 244 b0 then
        match t with
        | b1 :: b2 :: b3 :: t3 =>
            if in_range (if N.eqb b0 240 then 144 else 128)
                        (if N.eqb b0 244 then 143 else 191) b1
               && is_cont b2 && is_cont b3
            then option_map
                   (cons ((b0 - 240) * 262144 + (b1 - 128) * 4096
                          + (b2 - 128) * 64 + (b3 - 128))%N)
                   (utf8_points t3)
            else None
        | _ => None
        end
      else None
  end.

Definition decode_utf8 (b : bytes) : option Py.str :=
  utf8_points (List.map Byte.to_N b).

(* ================================================================== *)
(** ** The outside world *)

(** A PIL image: the program only hands it from [Image.open] to
    [pyzbar.decode]. *)
Record Image := { image_size : N * N; image_pixels : list N }.

(** A symbol reported by [pyzbar.decode]. *)
Record Decoded := { data : bytes; type : Py.str }.

(** A [requests.Response]. *)
Record Response := {
  status_code : Z;
  reason : Py.str;
  url : Py.str;
  json_body : result json   (* what [response.json()] does *)
}.

(** The platform the interpreter runs on. *)
Inductive os_name := posix | nt.

(** The dog's details, as sent to the model and written to the log. *)
Record dog_info := {
  breed : Py.str;
  age : spec_float;
  weight_kg : spec_float;
  activity : Py.str;
  allergies : list Py.str;
  additional_info : Py.str
}.

(** What the program does to the outside, newest first in [events]. *)
Inductive event :=
| Print (s : Py.str)
| HttpGet (api_url : Py.str) (headers : list (Py.str * Py.str))
| GenerateContent (prompt : Py.str) (outcome : result Py.str)
| LogInfo (message : Py.str)
| StSpinner (s : Py.str)
| StError (s : Py.str)
| StWarning (s : Py.str)
| StSuccess (s : Py.str)
| StInfo (s : Py.str)
| StSubheader (s : Py.str)
| StMarkdown (s : Py.str)
| StDataframe (rows : list (Py.str * Py.str))
| StJson (d : list (Py.str * json)).

Record world := {
  events : list event;
  tmpfiles : list Py.str     (* the temporary files that exist *)
}.

(** The libraries and services the program calls. *)
Record env := {
  (* tempfile.NamedTemporaryFile(delete=False, suffix=...): the new name *)
  NamedTemporaryFile : Py.str -> result Py.str;
  (* tmp_file.write(...) *)
  tmp_write : Py.str -> bytes -> result unit;
  (* PIL.Image.open *)
  Image_open : Py.str -> result Image;
  (* pyzbar.decode *)
  decode : Image -> result (list Decoded);
  (* the text of the UnicodeDecodeError for bytes that are not UTF-8 *)
  unicode_error_text : bytes -> Py.str;
  (* requests.get *)
  requests_get : Py.str -> list (Py.str * Py.str) -> result Response;
  (* model.generate_content(prompt).text *)
  generate_content : Py.str -> Py.str -> result Py.str;
  (* pd.DataFrame(items, columns=...) *)
  pd_DataFrame : list (Py.str * json) -> result (list (Py.str * json));
  (* str() of a dict *)
  str_dog : dog_info -> Py.str;
  str_json : json -> Py.str;
  (* os.name *)
  os_platform : os_name;
  (* st.secrets["APP_PASSWORD"] *)
  CORRECT_PASSWORD : Py.str
}.

(** [os.linesep]. *)
Definition os_linesep (p : os_name) : Py.str :=
  match p with
  | posix => [10%N]
  | nt => [13%N; 10%N]
  end.

(* ================================================================== *)
(** ** Effects: state and exceptions *)

Definition M (A : Type) : Type := world -> world * result A.

Definition ret {A} (a : A) : M A := fun w => (w, Ok a).

Definition bind {A B} (m : M A) (k : A -> M B) : M B :=
  fun w =>
    let (w1, r) := m w in
    match r with
    | Ok a => k a w1
    | Raise e => (w1, Raise e)
    end.

Notation "x <- m ;; k" := (bind m (fun x => k))
  (at level 61, m at next level, right associativity).
Notation "m ;; k" := (bind m (fun _ => k))
  (at level 61, right associativity).

(** A call that touches nothing of the world. *)
Definition lift {A} (r : result A) : M A := fun w => (w, r).

Definition emit (ev : event) : M unit :=
  fun w => ({| events := ev :: events w; tmpfiles := tmpfiles w |}, Ok tt).

(** [try: body / except ...: handler]: [handler e] is [None] when no
    clause matches [e]. *)
Definition try_except {A} (body : M A) (handler : exn -> option (M A)) : M A :=
  fun w =>
    let (w1, r) := body w in
    match r with
    | Ok a => (w1, Ok a)
    | Raise e =>
        match handler e with
        | Some h => h w1
        | None => (w1, Raise e)
        end
    end.

(** [try: body / finally: fin]. *)
Definition try_finally {A} (body : M A) (fin : M unit) : M A :=
  fun w =>
    let (w1, r) := body w in
    let (w2, rf) := fin w1 in
    match rf with
    | Ok _ => (w2, r)
    | Raise e => (w2, Raise e)
    end.

(** Run [m] and hand back its outcome as a value. *)
Definition attempt {A} (m : M A) : M (result A) :=
  fun w => let (w1, r) := m w in (w1, Ok r).

Definition print (s : Py.str) : M unit := emit (Print s).

(** The file system, as far as temporary files go. *)
Definition create_file (p : Py.str) : M unit :=
  fun w => ({| events := events w; tmpfiles := p :: tmpfiles w |}, Ok tt).

Definition os_path_exists (p : Py.str) : M bool :=
  fun w => (w, Ok (existsb (Py.str_eqb p) (tmpfiles w))).

Definition os_remove (p : Py.str) : M unit :=
  fun w =>
    if existsb (Py.str_eqb p) (tmpfiles w)
    then ({| events := events w;
             tmpfiles := filter (fun q => negb (Py.str_eqb p q)) (tmpfiles w) |},
          Ok tt)
    else (w, Raise {| exc_cls := OtherException (py "FileNotFoundError");
                      exc_msg := p |}).

(* ================================================================== *)
(** ** [backend_functions.py] *)

(** Lines 52-57: the body of [strip_leading_zeros] once [barcode_str] is a
    [str]. *)
Definition strip_leading_zeros_str (barcode_str : Py.str) : Py.str :=
  let stripped_barcode := Py.lstrip (py "0") barcode_str in
  if Py.truthy barcode_str
     && negb (Py.truthy stripped_barcode)
     && Py.contains (py "0") barcode_str
  then py "0"
  else stripped_barcode.

(** Lines 31-57. *)
Definition strip_leading_zeros (barcode_str : object) : result Py.str :=
  match
    (if negb (isinstance_str barcode_str) then
       match py_str barcode_str with
       | Ok s => Ok s
       | Raise _ =>
           Raise {| exc_cls := TypeError;
                    exc_msg :=
                      py "Input must be a string or convertible to a string." |}
       end
     else py_str barcode_str)
  with
  | Ok s => Ok (strip_leading_zeros_str s)
  | Raise e => Raise e
  end.

(** The endpoint and the field list of line 62. *)
Definition api_endpoint : Py.str :=
  py "https://world.openpetfoodfacts.org/api/v2/product/".

Definition api_query : Py.str :=
  py "?fields=product_name,brands,ingredients_text,ingredients_text,serving_size,energy-kcal_100g,fat_100g,carbohydrates_100g,proteins_100g".

Definition api_headers : list (Py.str * Py.str) :=
  [(py "User-Agent", py "YourProjectName - Python - Version 1.0")].

(** [response.raise_for_status()] of requests. *)
Definition raise_for_status (response : Response) : result unit :=
  let describe kind :=
    str_of_int (status_code response) ++ kind ++ reason response
    ++ py " for url: " ++ url response in
  if Z.leb 400 (status_code response) && Z.ltb (status_code response) 500
  then Raise {| exc_cls := HTTPError; exc_msg := describe (py " Client Error: ") |}
  else if Z.leb 500 (status_code response) && Z.ltb (status_code response) 600
  then Raise {| exc_cls := HTTPError; exc_msg := describe (py " Server Error: ") |}
  else Ok tt.

(** The class of [ai_agent] objects (lines 81-91). *)
Record ai_agent := {
  PATH_ENV : Py.str;
  base_prompt : Py.str;
  model_type : Py.str
}.

Definition ai_agent_init : ai_agent :=
  {| PATH_ENV := py "keys.env";
     base_prompt := py "Imagine you are a vetenarian specilised to work with dogs. You will be provided with dog race, age and weight. Furthermore will be provided with a specific type of dog food and its nutritions. Give me back a short and precise description on how much of the food the provided dog should eat and if it is generally good for him";
     model_type := py "gemini-1.5-flash" |}.

Section Backend.

Variable E : env.

(** Lines 11-14. *)
Definition load_image (path_image : Py.str) : M Image :=
  lift (Image_open E path_image).

(** Lines 15-28.  The function returns a [str], or [None]. *)
Definition scan_barcode_from_image (path_image : Py.str) : M (option Py.str) :=
  image <- load_image path_image ;;
  decoded_objects <- lift (decode E image) ;;
  try_except
    (match decoded_objects with
     | d :: _ =>
         print (str_of_int (Z.of_nat (List.length decoded_objects))
                ++ py " barcode(s) recognized:") ;;
         match decode_utf8 (data d) with
         | Some s => ret (Some s)
         | None =>
             lift (Raise {| exc_cls := UnicodeDecodeError;
                            exc_msg := unicode_error_text E (data d) |})
         end
     | [] =>
         print (10060%N :: py " no barcode recocognized") ;;
         ret None
     end)
    (fun e =>
       Some (print (py "Barcode reading failed with " ++ exc_msg e) ;;
             ret None)).

(** Lines 60-79.  The function returns [data['product']], or [None],
    which is [JNull]. *)
Definition get_nutrition_data (barcode_to_find : object) : M json :=
  s <- lift (py_str barcode_to_find) ;;
  stiped_barcode <- lift (strip_leading_zeros (OStr s)) ;;
  let api_url := api_endpoint ++ stiped_barcode ++ api_query in
  try_except
    (emit (HttpGet api_url api_headers) ;;
     response <- lift (requests_get E api_url api_headers) ;;
     lift (raise_for_status response) ;;
     data <- lift (json_body response) ;;
     status <- lift (json_get data (py "status")) ;;
     if json_eq_int status 1 && json_contains data (py "product")
     then lift (json_getitem data (py "product"))
     else ret JNull)
    (fun e =>
       if is_RequestException e then
         Some (print (py "API request failed: " ++ exc_msg e) ;; ret JNull)
       else if is_JSONDecodeError e then
         Some (print (py "Failed to parse API response") ;; ret JNull)
       else None).

(** Lines 96-104. *)
Definition create_prompt_string (self : ai_agent)
    (food_dict : json) (dog_dict : dog_info) : Py.str :=
  base_prompt self
  ++ py "The dog has the following properties:"
  ++ str_dog E dog_dict
  ++ py "The food has the following properties:"
  ++ str_json E food_dict.

(** Lines 106-111. *)
Definition create_response (self : ai_agent)
    (food_dict : json) (dog_dict : dog_info) : M Py.str :=
  let prompt := create_prompt_string self food_dict dog_dict in
  fun w =>
    let outcome := generate_content E (model_type self) prompt in
    (emit (GenerateContent prompt outcome) ;; lift outcome) w.

End Backend.

(* ================================================================== *)
(** ** [streamline.py] *)

(** The widgets' values when the script runs. *)
Record form := {
  uploaded_file : option bytes;
  camera_photo : option bytes;
  manual_barcode : Py.str;
  dog_breed : Py.str;
  dog_weight : spec_float;
  dog_age : spec_float;
  dog_activity : Py.str;
  dog_allergies_str : Py.str;
  dog_additional_info : Py.str;
  app_password_input : Py.str;
  submit_button : bool
}.

(** [bool(x)] for a float. *)
Definition float_truthy (x : spec_float) : bool :=
  match x with S754_zero _ => false | _ => true end.

(** [bool(x)] for a value that is a [str] or [None]. *)
Definition opt_truthy (x : option Py.str) : bool :=
  match x with Some s => Py.truthy s | None => false end.

(** Line 22: [ai_model = ai_agent()]. *)
Definition ai_model : ai_agent := ai_agent_init.

Section Streamline.

Variable E : env.

(** Lines 41-49. *)
Definition log_message (barcode : Py.str) (dog : dog_info)
    (nutrition_data : json) (recommendation : Py.str) : Py.str :=
  py "Interaction Log:" ++ [10%N]
  ++ [9%N] ++ py "Barcode: " ++ barcode ++ [10%N]
  ++ [9%N] ++ py "Dog Info: " ++ str_dog E dog ++ [10%N]
  ++ [9%N] ++ py "Nutrition Data: " ++ str_json E nutrition_data ++ [10%N]
  ++ [9%N] ++ py "Recommendation: "
  ++ Py.replace recommendation (os_linesep (os_platform E)) (py " ").

Definition log_interaction (barcode : Py.str) (dog : dog_info)
    (nutrition_data : json) (recommendation : Py.str) : M unit :=
  emit (LogInfo (log_message barcode dog nutrition_data recommendation)).

(** Lines 51-69.  [temp_image_path] stays [None] until the [with] block
    has run to its end, so the [finally] clause removes the file only
    then. *)
Definition process_image_input (image_file_like_object : bytes)
    : M (option Py.str) :=
  written <- attempt
    (tmp_file <- lift (NamedTemporaryFile E (py ".png")) ;;
     create_file tmp_file ;;
     lift (tmp_write E tmp_file image_file_like_object) ;;
     ret tmp_file) ;;
  match written with
  | Raise e =>
      emit (StError (py "Error processing image: " ++ exc_msg e)) ;;
      ret None
  | Ok temp_image_path =>
      try_finally
        (try_except
           (barcode <- scan_barcode_from_image E temp_image_path ;;
            if negb (opt_truthy barcode) then
              emit (StError (py "Could not detect a barcode in the image. Please try entering it manually.")) ;;
              ret None
            else
              emit (StSuccess (py "Detected Barcode: "
                               ++ match barcode with Some b => b | None => [] end)) ;;
              ret barcode)
           (fun e =>
              Some (emit (StError (py "Error processing image: " ++ exc_msg e)) ;;
                    ret None)))
        (there <- os_path_exists temp_image_path ;;
         if Py.truthy temp_image_path && there
         then os_remove temp_image_path
         else ret tt)
  end.

(** Lines 120-130. *)
Definition resolve_barcode (f : form) : M (option Py.str) :=
  emit (StSpinner (py "Processing barcode input...")) ;;
  match uploaded_file f with
  | Some u => process_image_input u
  | None =>
      match camera_photo f with
      | Some c => process_image_input c
      | None =>
          if Py.truthy (manual_barcode f) then
            emit (StSuccess (py "Using Manual Barcode: " ++ manual_barcode f)) ;;
            ret (Some (manual_barcode f))
          else
            emit (StWarning (py "Please provide a barcode via image upload, webcam, or manual entry.")) ;;
            ret None
      end
  end.

(** Lines 133-138. *)
Definition dog_info_dict (f : form) : dog_info :=
  {| breed := dog_breed f;
     age := dog_age f;
     weight_kg := dog_weight f;
     activity := dog_activity f;
     allergies :=
       List.map Py.strip
         (filter (fun allergy => Py.truthy (Py.strip allergy))
                 (Py.split 44%N (dog_allergies_str f)));
     additional_info := dog_additional_info f |}.

(** Lines 142-148. *)
Definition fetch_nutrition (barcode_to_process : Py.str) : M json :=
  emit (StSpinner (py "Fetching nutrition data for "
                   ++ barcode_to_process ++ py "...")) ;;
  try_except
    (get_nutrition_data E (OStr barcode_to_process))
    (fun e =>
       Some (emit (StError (py "Error fetching nutrition data: " ++ exc_msg e)) ;;
             ret JNull)).

(** Lines 151-161. *)
Definition show_nutrition (nutrition_info : json) : M unit :=
  emit (StSubheader (py "Nutrition Information")) ;;
  items <- lift (json_items nutrition_info) ;;
  let display_info :=
    filter (fun kv => match snd kv with JNull => false | _ => true end) items in
  try_except
    (df_nutrition <- lift (pd_DataFrame E display_info) ;;
     let df_nutrition :=
       filter (fun row => negb (Py.str_eqb (fst row) (py "schema_version")))
              df_nutrition in
     let df_nutrition :=
       List.map (fun row => (fst row, str_json E (snd row))) df_nutrition in
     emit (StDataframe df_nutrition))
    (fun e =>
       Some (emit (StError (py "Could not display nutrition data as table: "
                            ++ exc_msg e)) ;;
             emit (StJson display_info))).

(** Lines 163-183: the password check, the recommendation and the log. *)
Definition recommend (barcode_to_process : Py.str) (dog : dog_info)
    (nutrition_info : json) (password_input : Py.str) : M unit :=
  if negb (Py.truthy (CORRECT_PASSWORD E)) then
    emit (StError (py "Application password is not configured by the administrator. AI recommendations disabled."))
  else if Py.str_eqb password_input (CORRECT_PASSWORD E) then
    emit (StSpinner (py "Generating AI recommendation...")) ;;
    ai_recommendation <-
      try_except
        (text <- create_response E ai_model nutrition_info dog ;;
         emit (StSubheader (py "AI Veterinarian Recommendation")) ;;
         emit (StMarkdown text) ;;
         ret (Some text))
        (fun e =>
           Some (emit (StError (py "Error generating AI recommendation: "
                                ++ exc_msg e)) ;;
                 ret None)) ;;
    match ai_recommendation with
    | Some text =>
        if Py.truthy text then
          try_except
            (log_interaction barcode_to_process dog nutrition_info text ;;
             emit (StInfo (py "Interaction logged successfully.")))
            (fun e =>
               Some (emit (StError (py "Failed to log interaction: "
                                    ++ exc_msg e))))
        else ret tt
    | None => ret tt
    end
  else if Py.truthy password_input then
    emit (StError (py "Incorrect password. AI recommendation will not be generated."))
  else
    emit (StWarning (py "Password required to generate AI recommendation.")).

(** Lines 139-140. *)
Definition check_dog_details (f : form) : M unit :=
  if negb (Py.truthy (dog_breed f)) || negb (float_truthy (dog_age f))
     || negb (float_truthy (dog_weight f))
  then emit (StWarning (py "Please provide at least the dog's breed, age, and weight for better recommendations."))
  else ret tt.

(** Lines 132-189: the submission once a barcode is at hand. *)
Definition process_barcode (f : form) (barcode_to_process : Py.str) : M unit :=
  check_dog_details f ;;
  nutrition_info <- fetch_nutrition barcode_to_process ;;
  if json_truthy nutrition_info then
    show_nutrition nutrition_info ;;
    recommend barcode_to_process (dog_info_dict f) nutrition_info
              (app_password_input f)
  else
    emit (StError (py "Could not find nutrition information for barcode: "
                   ++ barcode_to_process)).

(** Lines 117-191: what a run of the script does in the output column. *)
Definition on_submit (f : form) : M unit :=
  if submit_button f then
    barcode_to_process <- resolve_barcode f ;;
    if opt_truthy barcode_to_process then
      process_barcode f (match barcode_to_process with
                         | Some b => b
                         | None => []
                         end)
    else ret tt
  else
    emit (StInfo (py "Provide food barcode, your dog's details, then click 'Get Recommendation'.")).

End Streamline.

(* ================================================================== *)
(** ** Reading a run *)

(** The character ['0']. *)
Definition zero : Py.char := 48%N.

(** [k] zeros. *)
Definition zeros (k : nat) : Py.str := repeat zero k.

(** [r] does not begin with ['0']. *)
Definition no_leading_zero (r : Py.str) : Prop :=
  match r with
  | [] => True
  | c :: _ => c <> zero
  end.

(** The HTTP requests sent so far, newest first. *)
Definition http_requests (w : world) : list (Py.str * list (Py.str * Py.str)) :=
  flat_map (fun ev => match ev with
                      | HttpGet u h => [(u, h)]
                      | _ => []
                      end) (events w).

(** The calls to the model and the log records, newest first. *)
Definition is_observed (ev : event) : bool :=
  match ev with
  | GenerateContent _ _ | LogInfo _ => true
  | _ => false
  end.

Definition observed (w : world) : list event := filter is_observed (events w).

(** The prompts sent to the model. *)
Definition ai_calls (w : world) : list Py.str :=
  flat_map (fun ev => match ev with
                      | GenerateContent p _ => [p]
                      | _ => []
                      end) (observed w).

(** The recommendations obtained: the model answered, and with a text
    that is not empty (the test of line 174). *)
Definition recommendations (w : world) : list Py.str :=
  flat_map (fun ev => match ev with
                      | GenerateContent _ (Ok text) =>
                          if Py.truthy text then [text] else []
                      | _ => []
                      end) (observed w).

(** The records written to the log. *)
Definition log_records (w : world) : list Py.str :=
  flat_map (fun ev => match ev with
                      | LogInfo m => [m]
                      | _ => []
                      end) (observed w).

(** A computation that neither calls the model nor writes to the log. *)
Definition silent {A} (m : M A) : Prop :=
  forall w, observed (fst (m w)) = observed w.

(** The fields the lookup asks for, in the order of the URL. *)
Definition requested_fields : list Py.str :=
  [py "product_name"; py "brands"; py "ingredients_text"; py "ingredients_text";
   py "serving_size"; py "energy-kcal_100g"; py "fat_100g";
   py "carbohydrates_100g"; py "proteins_100g"].

(** The world of a request sent, and of a diagnostic line printed. *)
Definition with_event (ev : event) (w : world) : world :=
  {| events := ev :: events w; tmpfiles := tmpfiles w |}.

(** The URL the lookup builds for a barcode string. *)
Definition api_url_of (s : Py.str) : Py.str :=
  api_endpoint ++ strip_leading_zeros_str s ++ api_query.

(** A response that is well formed and reports no product: the status is
    not in 400..599, the body is a JSON object, and its status is not 1 or
    it has no product. *)
Definition reports_absent (r : Response) : Prop :=
  raise_for_status r = Ok tt /\
  exists d, json_body r = Ok (JDict d) /\
    (json_eq_int (match dict_lookup d (py "status") with
                  | Some v => v
                  | None => JNull
                  end) 1
     && dict_contains d (py "product")) = false.

(** A response that fails: a status in 400..599, or a body that is not
    JSON. *)
Definition reports_failure (r : Response) : Prop :=
  (400 <= status_code r < 600)%Z \/
  (raise_for_status r = Ok tt /\
   exists e, json_body r = Raise e /\
     (is_RequestException e || is_JSONDecodeError e) = true).

(** The password is configured and the one entered equals it. *)
Definition password_accepted (E : env) (f : form) : Prop :=
  CORRECT_PASSWORD E <> [] /\ app_password_input f = CORRECT_PASSWORD E.

(** The lookup of a submission returns a record that counts: a barcode
    [b] is at hand and [get_nutrition_data] hands back a record [d], a JSON
    object, that passes the truth test of line 150, leaving the world
    [w2]. *)
Definition lookup_succeeds (E : env) (f : form) (w : world)
    (b : Py.str) (d : list (Py.str * json)) (w2 : world) : Prop :=
  submit_button f = true /\
  exists w1,
    resolve_barcode E f w = (w1, Ok (Some b)) /\
    Py.truthy b = true /\
    fetch_nutrition E b (fst (check_dog_details f w1)) = (w2, Ok (JDict d)) /\
    json_truthy (JDict d) = true.

(** The fields of a record that have a value: what is handed to pandas,
    and what is shown raw when pandas fails. *)
Definition fields_with_value (d : list (Py.str * json)) : list (Py.str * json) :=
  filter (fun kv => match snd kv with JNull => false | _ => true end) d.

(** The table shown for the rows pandas built: the [schema_version] row
    left out, each value as a string. *)
Definition table_of (E : env) (built : list (Py.str * json))
    : list (Py.str * Py.str) :=
  List.map (fun row => (fst row, str_json E (snd row)))
    (filter (fun row => negb (Py.str_eqb (fst row) (py "schema_version")))
            built).

(** The nutrition data of the record [d] are on the screen: the heading,
    then the table of what pandas built from the fields of [d] that have a
    value or, when pandas fails, the error and those fields raw. *)
Definition nutrition_displayed (E : env) (d : list (Py.str * json))
    (w2 w3 : world) : Prop :=
  match pd_DataFrame E (fields_with_value d) with
  | Ok built =>
      events w3 =
        StDataframe (table_of E built)
        :: StSubheader (py "Nutrition Information") :: events w2
  | Raise e =>
      events w3 =
        StJson (fields_with_value d)
        :: StError (py "Could not display nutrition data as table: " ++ exc_msg e)
        :: StSubheader (py "Nutrition Information") :: events w2
  end.

(** What is on the screen and in the log stays there: [w'] adds events
    to [w]. *)
Definition extends (w w' : world) : Prop :=
  exists new, events w' = new ++ events w.

(** The three outcomes the contract of the lookup names. *)
Inductive outcome :=
| NutritionRecord (product : json)
| NotFound
| LookupError.

(* ================================================================== *)
(** ** Example runs *)

Definition world0 : world := {| events := []; tmpfiles := [] |}.

(** [str()] of the JSON values of the examples. *)
Definition example_str_json (v : json) : Py.str :=
  let scalar x :=
    match x with
    | JStr s => py "'" ++ s ++ py "'"
    | JNull => py "None"
    | _ => py "..."
    end in
  match v with
  | JStr s => s
  | JDict d =>
      py "{"
      ++ Py.join (py ", ")
           (List.map (fun kv => py "'" ++ fst kv ++ py "': " ++ scalar (snd kv)) d)
      ++ py "}"
  | _ => scalar v
  end.

(** An environment whose libraries answer as given. *)
Definition example_env (opened : result Image) (symbols : list Decoded)
    (got : result Response) (answer : result Py.str)
    (platform : os_name) (password : Py.str) : env :=
  {| NamedTemporaryFile := fun suffix => Ok (py "/tmp/tmpk3v9.png");
     tmp_write := fun _ _ => Ok tt;
     Image_open := fun _ => opened;
     decode := fun _ => Ok symbols;
     unicode_error_text := fun _ => py "'utf-8' codec can't decode byte";
     requests_get := fun _ _ => got;
     generate_content := fun _ _ => answer;
     pd_DataFrame := fun items => Ok items;
     str_dog := fun dog => py "{'breed': '" ++ breed dog ++ py "'}";
     str_json := example_str_json;
     os_platform := platform;
     CORRECT_PASSWORD := password |}.

Definition example_response (status : Z) (body : result json) : Response :=
  {| status_code := status;
     reason := if Z.eqb status 200 then py "OK" else py "Not Found";
     url := py "https://world.openpetfoodfacts.org/api/v2/product/123";
     json_body := body |}.

Definition not_json : exn :=
  {| exc_cls := RequestsJSONDecodeError;
     exc_msg := py "Expecting value: line 1 column 1 (char 0)" |}.

Definition unidentified_image : exn :=
  {| exc_cls := OtherException (py "UnidentifiedImageError");
     exc_msg := py "cannot identify image file '/tmp/tmpk3v9.png'" |}.

Definition example_image : Image :=
  {| image_size := (2%N, 1%N); image_pixels := [0%N; 255%N] |}.

Definition example_symbol : Decoded :=
  {| data := list_byte_of_string "0049000028911"; type := py "EAN13" |}.

Definition test_kibble : list (Py.str * json) :=
  [(py "product_name", JStr (py "Test Kibble")); (py "brands", JNull)].

Definition found_body : json :=
  JDict [(py "status", JInt 1); (py "product", JDict test_kibble)].

Definition absent_body : json :=
  JDict [(py "status", JInt 0); (py "status_verbose", JStr (py "product not found"))].

(** An environment for the lookup alone. *)
Definition lookup_env (got : result Response) : env :=
  example_env (Raise unidentified_image) [] got
              (Ok (py "Feed 200 g a day.")) posix (py "s3cret").

(** A model answer of two lines. *)
Definition two_lines : Py.str := py "Feed 200 g" ++ [10%N] ++ py "twice a day".

Definition example_form (password_input : Py.str) : form :=
  {| uploaded_file := None;
     camera_photo := None;
     manual_barcode := py "0000000000123";
     dog_breed := py "Labrador";
     dog_weight := float_one;
     dog_age := float_one;
     dog_activity := py "Moderate (1-2 hours exercise/day)";
     dog_allergies_str := py "chicken, beef";
     dog_additional_info := [];
     app_password_input := password_input;
     submit_button := true |}.

Definition upload_form (content : bytes) : form :=
  {| uploaded_file := Some content;
     camera_photo := None;
     manual_barcode := [];
     dog_breed := py "Labrador";
     dog_weight := float_one;
     dog_age := float_one;
     dog_activity := py "Moderate (1-2 hours exercise/day)";
     dog_allergies_str := [];
     dog_additional_info := [];
     app_password_input := [];
     submit_button := true |}.

(* ================================================================== *)
(** ** Further readings of a run *)

(** A computation that leaves a reading [f] of the world as it is. *)
Definition preserves {A X : Type} (f : world -> X) (m : M A) : Prop :=
  forall w, f (fst (m w)) = f w.

(** A computation that no exception leaves. *)
Definition never_raises {A : Type} (m : M A) : Prop :=
  forall w, exists a, snd (m w) = Ok a.

(** What the two [except] clauses of [get_nutrition_data] make of an
    exception raised in its [try] block. *)
Definition lookup_except (e : exn) (w : world) : world * result json :=
  if is_RequestException e then
    (with_event (Print (py "API request failed: " ++ exc_msg e)) w, Ok JNull)
  else if is_JSONDecodeError e then
    (with_event (Print (py "Failed to parse API response")) w, Ok JNull)
  else (w, Raise e).

(** A text with each newline character turned into a space. *)
Definition flatten_newlines (text : Py.str) : Py.str :=
  List.map (fun c => if N.eqb c 10 then 32%N else c) text.

(** A payload of ASCII bytes. *)
Definition is_ascii (b : bytes) : bool :=
  forallb (fun x => N.ltb (Byte.to_N x) 128) b.

(** A string that does not begin with white space, and one that neither
    begins nor ends with it. *)
Definition no_space_at_head (s : Py.str) : Prop :=
  match s with
  | [] => True
  | c :: _ => Py.isspace c = false
  end.

Definition trimmed (s : Py.str) : Prop :=
  no_space_at_head s /\ no_space_at_head (rev s).

(** An environment in which the upload cannot be written to its temporary
    file. *)
Definition disk_full : exn :=
  {| exc_cls := OtherException (py "OSError");
     exc_msg := py "[Errno 28] No space left on device" |}.

Definition failing_write_env : env :=
  {| NamedTemporaryFile := fun suffix => Ok (py "/tmp/tmpk3v9.png");
     tmp_write := fun _ _ => Raise disk_full;
     Image_open := fun _ => Ok example_image;
     decode := fun _ => Ok [example_symbol];
     unicode_error_text := fun _ => py "'utf-8' codec can't decode byte";
     requests_get := fun _ _ => Raise not_json;
     generate_content := fun _ _ => Raise not_json;
     pd_DataFrame := fun items => Ok items;
     str_dog := fun dog => breed dog;
     str_json := example_str_json;
     os_platform := posix;
     CORRECT_PASSWORD := [] |}.

(** A response whose product entry is a string, not a record. *)
Definition odd_body : json :=
  JDict [(py "status", JInt 1); (py "product", JStr (py "kibble"))].

(** A response that is found, with none of the fields asked for. *)
Definition bare_body : json :=
  JDict [(py "status", JInt 1); (py "product", JDict [])].

(* ================================================================== *)
(** ** Facts about strings *)

Arguments Py.lit : simpl never.
Arguments strip_leading_zeros_str : simpl never.

Lemma str_eqb_eq (a b : Py.str) : Py.str_eqb a b = true <-> a = b.
Proof.
  unfold Py.str_eqb. destruct (list_eq_dec N.eq_dec a b); split;
    congruence.
Qed.

Lemma str_eqb_refl (a : Py.str) : Py.str_eqb a a = true.
Proof. now apply str_eqb_eq. Qed.

Lemma truthy_nonempty (s : Py.str) : Py.truthy s = true <-> s <> [].
Proof. destruct s; simpl; split; congruence. Qed.

Lemma lstrip_zeros_app (k : nat) (r : Py.str) :
  no_leading_zero r -> Py.lstrip (py "0") (zeros k ++ r) = r.
Proof.
  intros Hr. change (py "0") with [zero].
  induction k as [|k IH]; simpl.
  - destruct r as [|c t]; [reflexivity|].
    simpl in Hr. simpl. unfold Py.char_in. simpl.
    destruct (N.eqb_spec c zero) as [E|_]; [contradiction|reflexivity].
  - exact IH.
Qed.

Lemma leading_zeros_split (s : Py.str) :
  exists k r, s = zeros k ++ r /\ no_leading_zero r.
Proof.
  induction s as [|c t (k & r & E & Hr)].
  - exists 0, []. split; [reflexivity|exact I].
  - destruct (N.eq_dec c zero) as [->|Hc].
    + exists (S k), r. split; [simpl; now rewrite E|exact Hr].
    + exists 0, (c :: t). split; [reflexivity|exact Hc].
Qed.

Lemma strip_leading_zeros_str_split (k : nat) (r : Py.str) :
  no_leading_zero r ->
  strip_leading_zeros_str (zeros k ++ r) =
  match r, k with
  | [], S _ => py "0"
  | _, _ => r
  end.
Proof.
  intros Hr. unfold strip_leading_zeros_str.
  rewrite (lstrip_zeros_app k r Hr).
  destruct r as [|c t].
  - rewrite app_nil_r. destruct k as [|k]; reflexivity.
  - simpl Py.truthy. now rewrite andb_false_r.
Qed.

Lemma strip_leading_zeros_OStr (s : Py.str) :
  strip_leading_zeros (OStr s) = Ok (strip_leading_zeros_str s).
Proof. reflexivity. Qed.

Lemma strip_leading_zeros_str_fixed (s : Py.str) :
  strip_leading_zeros_str (strip_leading_zeros_str s) = strip_leading_zeros_str s.
Proof.
  destruct (leading_zeros_split s) as (k & r & -> & Hr).
  rewrite (strip_leading_zeros_str_split k r Hr).
  destruct r as [|c t].
  - destruct k; reflexivity.
  - exact (strip_leading_zeros_str_split 0 (c :: t) Hr).
Qed.

(* ================================================================== *)
(** ** The normaliser *)

(** C1.  Every string [s] splits as [k] leading ['0'] characters followed
    by a rest [r] that does not begin with ['0'].  [strip_leading_zeros]
    succeeds on [s] and returns that rest, except that it returns ["0"]
    when the rest is empty and [k >= 1], that is when [s] is not empty and
    holds zeros only.  On the empty string it returns the empty string.
    The result depends on [s] alone. *)
Theorem strip_leading_zeros_spec (s : Py.str) :
  exists k r,
    s = zeros k ++ r /\ no_leading_zero r /\
    strip_leading_zeros (OStr s) =
      Ok (match r, k with
          | [], S _ => py "0"
          | _, _ => r
          end).
Proof.
  destruct (leading_zeros_split s) as (k & r & -> & Hr).
  exists k, r. repeat split; [exact Hr|].
  rewrite strip_leading_zeros_OStr. f_equal.
  now apply strip_leading_zeros_str_split.
Qed.

(** C2.  Normalising twice is normalising once: [strip_leading_zeros]
    returns on every string a string that it maps to itself; in
    particular it maps ["0"] to ["0"] and the empty string to itself. *)
Theorem strip_leading_zeros_idempotent (s : Py.str) :
  (exists r, strip_leading_zeros (OStr s) = Ok r /\
             strip_leading_zeros (OStr r) = Ok r) /\
  strip_leading_zeros (OStr (py "0")) = Ok (py "0") /\
  strip_leading_zeros (OStr []) = Ok [].
Proof.
  split; [|split; reflexivity].
  exists (strip_leading_zeros_str s). split; [reflexivity|].
  rewrite strip_leading_zeros_OStr. f_equal.
  apply strip_leading_zeros_str_fixed.
Qed.

(* ================================================================== *)
(** ** The lookup *)

Ltac run_monad :=
  unfold bind, lift, ret, emit, print, try_except, try_finally, attempt,
    with_event in *.

(** What [get_nutrition_data] does once [str()] has given [s]: one request,
    then the handling of the answer. *)
Lemma get_nutrition_data_of_str (E : env) (v : object) (s : Py.str) (w : world) :
  py_str v = Ok s ->
  get_nutrition_data E v w = get_nutrition_data E (OStr s) w.
Proof.
  intros H. unfold get_nutrition_data. run_monad. rewrite H. reflexivity.
Qed.

(** C10.  [strip_leading_zeros] turns an argument that is not a string
    into [str()] of it and fails, with a [TypeError], only when [str()]
    fails; [get_nutrition_data] on a value [v] does what it does on
    [str(v)], and raises what [str(v)] raises when that fails. *)
Theorem get_nutrition_data_coerces (E : env) (v : object) (w : world) :
  strip_leading_zeros v =
    match py_str v with
    | Ok s => Ok (strip_leading_zeros_str s)
    | Raise e =>
        Raise {| exc_cls := TypeError;
                 exc_msg :=
                   py "Input must be a string or convertible to a string." |}
    end /\
  match py_str v with
  | Ok s => get_nutrition_data E v w = get_nutrition_data E (OStr s) w
  | Raise e => get_nutrition_data E v w = (w, Raise e)
  end.
Proof.
  split.
  - destruct v as [s|z| |[s|e]]; reflexivity.
  - destruct (py_str v) as [s|e] eqn:Hv.
    + now apply get_nutrition_data_of_str.
    + unfold get_nutrition_data. run_monad. now rewrite Hv.
Qed.

(** The requests of a run of [get_nutrition_data] on a string. *)
Lemma get_nutrition_data_http (E : env) (s : Py.str) (w : world) :
  http_requests (fst (get_nutrition_data E (OStr s) w)) =
  (api_url_of s, api_headers) :: http_requests w.
Proof.
  unfold get_nutrition_data, api_url_of. run_monad.
  cbn [py_str strip_leading_zeros isinstance_str negb].
  destruct (requests_get E _ api_headers) as [r|e]; cbn [fst snd].
  - destruct (raise_for_status r) as [[]|e]; cbn [fst snd].
    + destruct (json_body r) as [data|e]; cbn [fst snd].
      * destruct (json_get data (py "status")) as [st|e]; cbn [fst snd].
        -- destruct (json_eq_int st 1 && json_contains data (py "product"));
             [destruct (json_getitem data (py "product")) as [p|e]|];
             cbn [fst snd]; try reflexivity.
           destruct (is_RequestException e); [reflexivity|].
           destruct (is_JSONDecodeError e); reflexivity.
        -- destruct (is_RequestException e); [reflexivity|].
           destruct (is_JSONDecodeError e); reflexivity.
      * destruct (is_RequestException e); [reflexivity|].
        destruct (is_JSONDecodeError e); reflexivity.
    + destruct (is_RequestException e); [reflexivity|].
      destruct (is_JSONDecodeError e); reflexivity.
  - destruct (is_RequestException e); [reflexivity|].
    destruct (is_JSONDecodeError e); reflexivity.
Qed.

(** C4.  [get_nutrition_data] normalises [str()] of its argument and sends
    one GET request, to the product endpoint followed by the normalised
    barcode and the field list, with a [User-Agent] header.  The field
    list names product name, brands, ingredients text (twice), serving
    size and energy, fat, carbohydrates and proteins per 100 g.  The
    barcode ["0000000000123"] is requested as [123]. *)
Theorem get_nutrition_data_request (E : env) (v : object) (s : Py.str) (w : world) :
  py_str v = Ok s ->
  http_requests (fst (get_nutrition_data E v w)) =
    (api_endpoint ++ strip_leading_zeros_str s ++ api_query, api_headers)
    :: http_requests w /\
  api_endpoint = py "https://world.openpetfoodfacts.org/api/v2/product/" /\
  api_query = py "?fields=" ++ Py.join (py ",") requested_fields /\
  count_occ (list_eq_dec N.eq_dec) requested_fields (py "ingredients_text") = 2 /\
  api_headers = [(py "User-Agent", py "YourProjectName - Python - Version 1.0")] /\
  api_endpoint ++ strip_leading_zeros_str (py "0000000000123") ++ api_query =
    py "https://world.openpetfoodfacts.org/api/v2/product/123?fields=product_name,brands,ingredients_text,ingredients_text,serving_size,energy-kcal_100g,fat_100g,carbohydrates_100g,proteins_100g".
Proof.
  intros Hv. split; [|repeat split; vm_compute; reflexivity].
  rewrite (get_nutrition_data_of_str E v s w Hv).
  apply get_nutrition_data_http.
Qed.

Lemma get_nutrition_data_request_witness :
  py_str (OInt 123) = Ok (py "123") /\
  http_requests (fst (get_nutrition_data (lookup_env (Ok (example_response 200 (Ok found_body))))
                        (OInt 123) world0)) =
    [(api_endpoint ++ strip_leading_zeros_str (py "123") ++ api_query, api_headers)].
Proof.
  split; [reflexivity|].
  exact (proj1 (get_nutrition_data_request
                  (lookup_env (Ok (example_response 200 (Ok found_body))))
                  (OInt 123) (py "123") world0 eq_refl)).
Defined.

(** A status outside 400..599 passes [raise_for_status]. *)
Lemma raise_for_status_2xx (r : Response) :
  (200 <= status_code r < 300)%Z -> raise_for_status r = Ok tt.
Proof.
  intros H. unfold raise_for_status.
  replace (Z.ltb (status_code r) 500) with true by (symmetry; apply Z.ltb_lt; lia).
  replace (Z.leb 400 (status_code r)) with false by (symmetry; apply Z.leb_gt; lia).
  replace (Z.leb 500 (status_code r)) with false by (symmetry; apply Z.leb_gt; lia).
  reflexivity.
Qed.

Lemma raise_for_status_error (r : Response) :
  (400 <= status_code r < 600)%Z ->
  exists e, raise_for_status r = Raise e /\ is_RequestException e = true.
Proof.
  intros H. unfold raise_for_status.
  destruct (Z.leb 400 (status_code r) && Z.ltb (status_code r) 500) eqn:H4.
  - eexists. split; reflexivity.
  - replace (Z.leb 500 (status_code r) && Z.ltb (status_code r) 600) with true.
    + eexists. split; reflexivity.
    + symmetry. apply andb_true_iff. split; [apply Z.leb_le|apply Z.ltb_lt]; [|lia].
      apply andb_false_iff in H4 as [H4|H4];
        [apply Z.leb_gt in H4|apply Z.ltb_ge in H4]; lia.
Qed.

(** C3, as the code has it.  After its one request [get_nutrition_data]
    returns [None] for a well-formed answer that reports no product, and it
    returns [None] as well, after printing one diagnostic line, for an
    answer with a status in 400..599 or with a body that is not JSON; no
    exception leaves the function in either of these cases.  The returned
    value is the same in both, so it does not tell a failed lookup from a
    product that is not there. *)
Theorem get_nutrition_data_none_outcomes
    (E : env) (v : object) (s : Py.str) (w : world) (r : Response) :
  py_str v = Ok s ->
  requests_get E (api_url_of s) api_headers = Ok r ->
  (reports_absent r ->
   get_nutrition_data E v w =
     (with_event (HttpGet (api_url_of s) api_headers) w, Ok JNull)) /\
  (reports_failure r ->
   exists line,
     get_nutrition_data E v w =
       (with_event (Print line) (with_event (HttpGet (api_url_of s) api_headers) w),
        Ok JNull)).
Proof.
  intros Hv Hget.
  rewrite (get_nutrition_data_of_str E v s w Hv).
  unfold get_nutrition_data, api_url_of in *. run_monad.
  cbn [py_str strip_leading_zeros isinstance_str negb].
  rewrite Hget. split.
  - intros (Hst & d & Hbody & Hcond).
    rewrite Hst, Hbody. cbn [json_get json_contains].
    rewrite Hcond. reflexivity.
  - intros [Hst|(Hst & e & Hbody & He)].
    + destruct (raise_for_status_error r Hst) as (e & -> & He).
      rewrite He. eexists. reflexivity.
    + rewrite Hst, Hbody.
      destruct (is_RequestException e); [eexists; reflexivity|].
      simpl in He. rewrite He. eexists. reflexivity.
Qed.

Lemma get_nutrition_data_none_outcomes_witness :
  let E := lookup_env (Ok (example_response 404 (Raise not_json))) in
  exists line,
    get_nutrition_data E (OStr (py "0000000000123")) world0 =
      (with_event (Print line)
         (with_event (HttpGet (api_url_of (py "0000000000123")) api_headers) world0),
       Ok JNull).
Proof.
  intros E.
  apply (get_nutrition_data_none_outcomes E (OStr (py "0000000000123"))
           (py "0000000000123") world0
           (example_response 404 (Raise not_json)) eq_refl eq_refl).
  left. simpl. lia.
Defined.

(** C3, as stated, fails: no reading of the returned value tells the
    answer to a 404 status from the answer to a well-formed body that
    reports no product. *)
Lemma lookup_error_not_distinct_from_not_found :
  ~ exists classify : result json -> outcome,
      classify (snd (get_nutrition_data
                       (lookup_env (Ok (example_response 404 (Raise not_json))))
                       (OStr (py "123")) world0)) = LookupError /\
      classify (snd (get_nutrition_data
                       (lookup_env (Ok (example_response 200 (Ok absent_body))))
                       (OStr (py "123")) world0)) = NotFound.
Proof.
  intros (classify & H1 & H2).
  vm_compute in H1, H2. congruence.
Qed.

(** C5, as the code has it.  For a 2xx response whose body is a JSON
    object, [get_nutrition_data] returns the object's [product] entry
    unchanged when its [status] equals 1 and it has a [product] entry, and
    [None] otherwise. *)
Theorem get_nutrition_data_json_object
    (E : env) (v : object) (s : Py.str) (w : world) (r : Response)
    (d : list (Py.str * json)) :
  py_str v = Ok s ->
  requests_get E (api_url_of s) api_headers = Ok r ->
  (200 <= status_code r < 300)%Z ->
  json_body r = Ok (JDict d) ->
  get_nutrition_data E v w =
    (with_event (HttpGet (api_url_of s) api_headers) w,
     Ok (match dict_lookup d (py "status"), dict_lookup d (py "product") with
         | Some status, Some product =>
             if json_eq_int status 1 then product else JNull
         | _, _ => JNull
         end)).
Proof.
  intros Hv Hget Hst Hbody.
  rewrite (get_nutrition_data_of_str E v s w Hv).
  unfold get_nutrition_data, api_url_of in *. run_monad.
  cbn [py_str strip_leading_zeros isinstance_str negb].
  rewrite Hget, (raise_for_status_2xx r Hst), Hbody.
  cbn [json_get json_contains json_getitem]. unfold dict_contains.
  destruct (dict_lookup d (py "status")) as [st|];
    destruct (dict_lookup d (py "product")) as [p|]; cbn [json_eq_int];
    try destruct (json_eq_int st 1); reflexivity.
Qed.

Lemma get_nutrition_data_json_object_witness :
  snd (get_nutrition_data
         (lookup_env (Ok (example_response 200 (Ok found_body))))
         (OStr (py "0000000000123")) world0) = Ok (JDict test_kibble).
Proof.
  refine (f_equal snd
            (get_nutrition_data_json_object
               (lookup_env (Ok (example_response 200 (Ok found_body))))
               (OStr (py "0000000000123")) (py "0000000000123") world0
               (example_response 200 (Ok found_body))
               [(py "status", JInt 1); (py "product", JDict test_kibble)]
               _ _ _ _));
    try reflexivity.
  simpl. lia.
Defined.

(** C5, as stated, fails: a 200 response whose body is the JSON array
    [[]] makes [get_nutrition_data] raise an [AttributeError] instead of
    returning [None]. *)
Lemma valid_json_array_raises :
  snd (get_nutrition_data
         (lookup_env (Ok (example_response 200 (Ok (JList [])))))
         (OStr (py "123")) world0) =
    Raise {| exc_cls := AttributeError;
             exc_msg := py "'list' object has no attribute 'get'" |} /\
  snd (get_nutrition_data
         (lookup_env (Ok (example_response 200 (Ok (JList [])))))
         (OStr (py "123")) world0) <> Ok JNull.
Proof. split; [reflexivity|discriminate]. Qed.

(* ================================================================== *)
(** ** The decoder *)

(** C6.  When the image loads and the symbol detection answers, the
    function returns the UTF-8 text of the payload of the first symbol
    reported, and [None] when no symbol is reported.  (A payload that is
    not UTF-8 has no text: the function returns [None] then.) *)
Theorem scan_barcode_from_image_first_symbol
    (E : env) (path_image : Py.str) (image : Image) (symbols : list Decoded)
    (w : world) :
  Image_open E path_image = Ok image ->
  decode E image = Ok symbols ->
  snd (scan_barcode_from_image E path_image w) =
    Ok (match symbols with
        | [] => None
        | first :: _ => decode_utf8 (data first)
        end).
Proof.
  intros Hopen Hdec.
  unfold scan_barcode_from_image, load_image. run_monad.
  rewrite Hopen, Hdec.
  destruct symbols as [|first rest]; [reflexivity|].
  cbn [fst snd]. destruct (decode_utf8 (data first)); reflexivity.
Qed.

Lemma scan_barcode_from_image_first_symbol_witness :
  snd (scan_barcode_from_image
         (example_env (Ok example_image) [example_symbol]
                      (Raise not_json) (Raise not_json) posix [])
         (py "/tmp/tmpk3v9.png") world0) =
    Ok (Some (py "0049000028911")).
Proof.
  exact (scan_barcode_from_image_first_symbol
           (example_env (Ok example_image) [example_symbol]
                        (Raise not_json) (Raise not_json) posix [])
           (py "/tmp/tmpk3v9.png") example_image [example_symbol] world0
           eq_refl eq_refl).
Defined.

(** C7.  When [Image.open] raises on the stored upload, the decode step
    raises that exception and returns no barcode; [process_image_input]
    catches it, shows it as an error and returns [None]; the submission
    then ends without an exception. *)
Theorem undecodable_image_is_recoverable
    (E : env) (content : bytes) (tmp : Py.str) (e : exn) (w : world) :
  NamedTemporaryFile E (py ".png") = Ok tmp ->
  tmp_write E tmp content = Ok tt ->
  Image_open E tmp = Raise e ->
  (forall w1, scan_barcode_from_image E tmp w1 = (w1, Raise e)) /\
  (exists w',
     process_image_input E content w = (w', Ok None) /\
     events w' = StError (py "Error processing image: " ++ exc_msg e) :: events w) /\
  (forall f, submit_button f = true -> uploaded_file f = Some content ->
     exists w', on_submit E f w = (w', Ok tt)).
Proof.
  intros Htmp Hwrite Hopen.
  assert (Hscan : forall w1, scan_barcode_from_image E tmp w1 = (w1, Raise e)).
  { intros w1. unfold scan_barcode_from_image, load_image. run_monad.
    now rewrite Hopen. }
  assert (Hproc : forall w0, exists w',
             process_image_input E content w0 = (w', Ok None) /\
             events w' = StError (py "Error processing image: " ++ exc_msg e)
                         :: events w0).
  { intros w0. unfold process_image_input.
    unfold bind at 1. unfold attempt.
    unfold bind at 1. unfold lift at 1. rewrite Htmp.
    unfold bind at 1. unfold create_file at 1.
    unfold bind at 1. unfold lift at 1. rewrite Hwrite.
    unfold ret at 1. unfold try_finally, try_except.
    unfold bind at 1. rewrite Hscan.
    unfold bind at 1. unfold emit at 1. unfold ret at 1.
    unfold bind, os_path_exists. cbn [tmpfiles existsb].
    rewrite str_eqb_refl. cbn [orb]. rewrite andb_true_r.
    destruct (Py.truthy tmp).
    - unfold os_remove. cbn [tmpfiles existsb]. rewrite str_eqb_refl.
      cbn [orb]. eexists. split; reflexivity.
    - unfold ret. eexists. split; reflexivity. }
  split; [exact Hscan|]. split; [apply Hproc|].
  intros f Hsub Hup. unfold on_submit, resolve_barcode.
  rewrite Hsub, Hup. unfold bind at 1. unfold bind at 1. unfold emit at 1.
  destruct (Hproc {| events := StSpinner (py "Processing barcode input...") :: events w;
                     tmpfiles := tmpfiles w |}) as (w' & -> & _).
  cbn [opt_truthy]. unfold ret. eexists. reflexivity.
Qed.

Lemma undecodable_image_is_recoverable_witness :
  exists w',
    on_submit (example_env (Raise unidentified_image) [] (Raise not_json)
                           (Raise not_json) posix [])
              (upload_form (list_byte_of_string "not an image")) world0
    = (w', Ok tt).
Proof.
  apply (undecodable_image_is_recoverable
           (example_env (Raise unidentified_image) [] (Raise not_json)
                        (Raise not_json) posix [])
           (list_byte_of_string "not an image") (py "/tmp/tmpk3v9.png")
           unidentified_image world0 eq_refl eq_refl eq_refl);
    reflexivity.
Defined.

(* ================================================================== *)
(** ** Steps that neither call the model nor write to the log *)

Lemma silent_ret {A} (a : A) : silent (ret a).
Proof. intros w. reflexivity. Qed.

Lemma silent_lift {A} (r : result A) : silent (lift r).
Proof. intros w. reflexivity. Qed.

Lemma silent_emit (ev : event) : is_observed ev = false -> silent (emit ev).
Proof. intros H w. unfold observed, emit. simpl. now rewrite H. Qed.

Lemma silent_bind {A B} (m : M A) (k : A -> M B) :
  silent m -> (forall a, silent (k a)) -> silent (bind m k).
Proof.
  intros Hm Hk w. unfold bind. specialize (Hm w).
  destruct (m w) as [w1 [a|e]]; simpl in *; [|exact Hm].
  now rewrite Hk.
Qed.

Lemma silent_try_except {A} (body : M A) (handler : exn -> option (M A)) :
  silent body ->
  (forall e, match handler e with Some h => silent h | None => True end) ->
  silent (try_except body handler).
Proof.
  intros Hb Hh w. unfold try_except. specialize (Hb w).
  destruct (body w) as [w1 [a|e]]; simpl in *; [exact Hb|].
  specialize (Hh e). destruct (handler e) as [h|]; [|exact Hb].
  now rewrite Hh.
Qed.

Lemma silent_try_finally {A} (body : M A) (fin : M unit) :
  silent body -> silent fin -> silent (try_finally body fin).
Proof.
  intros Hb Hf w. unfold try_finally. specialize (Hb w).
  destruct (body w) as [w1 r]. specialize (Hf w1).
  destruct (fin w1) as [w2 [[]|e]]; simpl in *; congruence.
Qed.

Lemma silent_attempt {A} (m : M A) : silent m -> silent (attempt m).
Proof.
  intros Hm w. unfold attempt. specialize (Hm w).
  now destruct (m w) as [w1 r].
Qed.

Lemma silent_create_file (p : Py.str) : silent (create_file p).
Proof. intros w. reflexivity. Qed.

Lemma silent_os_path_exists (p : Py.str) : silent (os_path_exists p).
Proof. intros w. reflexivity. Qed.

Lemma silent_os_remove (p : Py.str) : silent (os_remove p).
Proof.
  intros w. unfold os_remove.
  destruct (existsb (Py.str_eqb p) (tmpfiles w)); reflexivity.
Qed.

Ltac silence :=
  repeat first
    [ apply silent_ret
    | apply silent_lift
    | apply silent_create_file
    | apply silent_os_path_exists
    | apply silent_os_remove
    | apply silent_emit; reflexivity
    | apply silent_attempt
    | apply silent_bind; [|intros ?]
    | apply silent_try_finally
    | apply silent_try_except; [|intros ?; cbv beta]
    | exact I
    | match goal with
      | |- silent (match ?x with _ => _ end) => destruct x
      | |- match (if ?c then _ else _) with _ => _ end => destruct c
      | |- silent (let _ := _ in _) => cbv zeta
      end ].

Lemma silent_scan_barcode_from_image (E : env) (path_image : Py.str) :
  silent (scan_barcode_from_image E path_image).
Proof. unfold scan_barcode_from_image, load_image, print. silence. Qed.

Lemma silent_process_image_input (E : env) (content : bytes) :
  silent (process_image_input E content).
Proof.
  unfold process_image_input. silence.
  all: try apply silent_scan_barcode_from_image; silence.
Qed.

Lemma silent_resolve_barcode (E : env) (f : form) :
  silent (resolve_barcode E f).
Proof.
  unfold resolve_barcode. silence.
  all: try apply silent_process_image_input; silence.
Qed.

Lemma silent_get_nutrition_data (E : env) (v : object) :
  silent (get_nutrition_data E v).
Proof. unfold get_nutrition_data, print. silence. Qed.

Lemma silent_fetch_nutrition (E : env) (b : Py.str) :
  silent (fetch_nutrition E b).
Proof.
  unfold fetch_nutrition. silence.
  all: try apply silent_get_nutrition_data; silence.
Qed.

Lemma silent_check_dog_details (f : form) : silent (check_dog_details f).
Proof. unfold check_dog_details. silence. Qed.

Lemma silent_show_nutrition (E : env) (nutrition_info : json) :
  silent (show_nutrition E nutrition_info).
Proof. unfold show_nutrition. silence. Qed.

Lemma check_dog_details_ok (f : form) (w : world) :
  snd (check_dog_details f w) = Ok tt.
Proof.
  unfold check_dog_details.
  destruct (negb (Py.truthy (dog_breed f)) || negb (float_truthy (dog_age f))
            || negb (float_truthy (dog_weight f))); reflexivity.
Qed.

(* ================================================================== *)
(** ** The submission *)

Lemma suffix_refl (l : list event) : exists new, l = new ++ l.
Proof. now exists []. Qed.

Lemma suffix_cons (ev : event) (evs l : list event) :
  (exists new, evs = new ++ l) -> exists new, ev :: evs = new ++ l.
Proof. intros (new & ->). now exists (ev :: new). Qed.

Ltac extend :=
  unfold extends; cbn [events tmpfiles];
  repeat apply suffix_cons; apply suffix_refl.

Lemma password_accepted_iff (E : env) (f : form) :
  Py.truthy (CORRECT_PASSWORD E)
  && Py.str_eqb (app_password_input f) (CORRECT_PASSWORD E) = true
  <-> password_accepted E f.
Proof.
  unfold password_accepted.
  rewrite andb_true_iff, truthy_nonempty, str_eqb_eq. tauto.
Qed.

(** The nutrition data of a record are shown, whatever pandas does. *)
Lemma show_nutrition_dict (E : env) (d : list (Py.str * json)) (w2 : world) :
  exists w3,
    show_nutrition E (JDict d) w2 = (w3, Ok tt) /\ nutrition_displayed E d w2 w3.
Proof.
  unfold show_nutrition, nutrition_displayed. run_monad. cbn [json_items].
  fold (fields_with_value d).
  destruct (pd_DataFrame E (fields_with_value d)) as [built|e];
    eexists; split; reflexivity.
Qed.

(** The password check: what it adds to the calls of the model and to the
    log. *)
Lemma recommend_run (E : env) (b : Py.str) (dog : dog_info) (nutr : json)
    (input : Py.str) (w : world) :
  let prompt := create_prompt_string E ai_model nutr dog in
  let outcome := generate_content E (model_type ai_model) prompt in
  exists w',
    recommend E b dog nutr input w = (w', Ok tt) /\
    extends w w' /\
    observed w' =
      (if Py.truthy (CORRECT_PASSWORD E) && Py.str_eqb input (CORRECT_PASSWORD E)
       then
         match outcome with
         | Ok text =>
             if Py.truthy text
             then [LogInfo (log_message E b dog nutr text)]
             else []
         | Raise _ => []
         end ++ [GenerateContent prompt outcome]
       else []) ++ observed w.
Proof.
  intros prompt outcome. unfold recommend, create_response, log_interaction.
  fold prompt. fold outcome. run_monad.
  destruct (Py.truthy (CORRECT_PASSWORD E)); cbn [negb andb].
  2: { eexists. split; [reflexivity|]. split; [|reflexivity].
       extend. }
  destruct (Py.str_eqb input (CORRECT_PASSWORD E)).
  2: { destruct (Py.truthy input); (eexists; split; [reflexivity|]);
         (split; [|reflexivity]); extend. }
  cbn [fst snd events tmpfiles].
  destruct outcome as [text|e]; cbn [fst snd events tmpfiles].
  - destruct (Py.truthy text); (eexists; split; [reflexivity|]);
      (split; [|reflexivity]); extend.
  - eexists. split; [reflexivity|]. split; [|reflexivity].
    extend.
Qed.

(** A run of the submission either adds nothing to the calls of the model
    and to the log, or ends with the password check of a record looked
    up. *)
Lemma on_submit_observed (E : env) (f : form) (w w' : world) (r : result unit) :
  on_submit E f w = (w', r) ->
  observed w' = observed w \/
  exists b nutr w3,
    observed w3 = observed w /\
    recommend E b (dog_info_dict f) nutr (app_password_input f) w3 = (w', r).
Proof.
  unfold on_submit. intros H.
  destruct (submit_button f); [|left; inversion H; reflexivity].
  unfold bind at 1 in H.
  pose proof (silent_resolve_barcode E f w) as H1.
  destruct (resolve_barcode E f w) as [w1 [ob|e]]; cbn [fst snd] in *;
    [|left; inversion H; subst; exact H1].
  destruct (opt_truthy ob); [|left; inversion H; subst; exact H1].
  unfold process_barcode in H. unfold bind at 1 in H.
  pose proof (silent_check_dog_details f w1) as H2.
  pose proof (check_dog_details_ok f w1) as H2'.
  destruct (check_dog_details f w1) as [wc rc]; cbn [fst snd] in *. subst rc.
  unfold bind at 1 in H.
  pose proof (silent_fetch_nutrition E (match ob with Some b => b | None => [] end) wc)
    as H3.
  destruct (fetch_nutrition E _ wc) as [w2 [nutr|e]]; cbn [fst snd] in *;
    [|left; inversion H; subst; congruence].
  destruct (json_truthy nutr);
    [|left; inversion H; subst; unfold observed in *; cbn; congruence].
  unfold bind at 1 in H.
  pose proof (silent_show_nutrition E nutr w2) as H4.
  destruct (show_nutrition E nutr w2) as [w3 [[]|e]]; cbn [fst snd] in *;
    [|left; inversion H; subst; congruence].
  right. exists (match ob with Some b => b | None => [] end), nutr, w3.
  split; [congruence|exact H].
Qed.

(** C8, as the code has it.  When the lookup of a submission returns a
    record, a JSON object, that passes the truth test of line 150, the
    nutrition data of that record are shown, the submission ends without an
    exception with them still on the screen, and the model is called,
    once, exactly when a password is configured and the one entered equals
    it. *)
Theorem recommendation_iff_password
    (E : env) (f : form) (w : world) (b : Py.str)
    (d : list (Py.str * json)) (w2 : world) :
  lookup_succeeds E f w b d w2 ->
  exists w3 w',
    show_nutrition E (JDict d) w2 = (w3, Ok tt) /\
    nutrition_displayed E d w2 w3 /\
    on_submit E f w = (w', Ok tt) /\
    extends w3 w' /\
    (password_accepted E f ->
     ai_calls w' =
       create_prompt_string E ai_model (JDict d) (dog_info_dict f) :: ai_calls w) /\
    (~ password_accepted E f -> ai_calls w' = ai_calls w).
Proof.
  intros (Hsub & w1 & Hres & Hb & Hfetch & Hd).
  destruct (show_nutrition_dict E d w2) as (w3 & Hshow & Hdisp).
  destruct (recommend_run E b (dog_info_dict f) (JDict d) (app_password_input f) w3)
    as (w' & Hrec & Hext & Hobs).
  exists w3, w'.
  assert (Hsilent : observed w3 = observed w).
  { pose proof (silent_resolve_barcode E f w) as H1. rewrite Hres in H1.
    pose proof (silent_check_dog_details f w1) as H2.
    pose proof (silent_fetch_nutrition E b (fst (check_dog_details f w1))) as H3.
    rewrite Hfetch in H3.
    pose proof (silent_show_nutrition E (JDict d) w2) as H4. rewrite Hshow in H4.
    cbn [fst] in *. congruence. }
  repeat split; try assumption.
  - unfold on_submit. rewrite Hsub. unfold bind at 1. rewrite Hres.
    cbn [opt_truthy]. rewrite Hb. unfold process_barcode. unfold bind at 1.
    pose proof (check_dog_details_ok f w1) as Hok.
    destruct (check_dog_details f w1) as [wc rc]; cbn [fst snd] in *. subst rc.
    unfold bind at 1. rewrite Hfetch, Hd.
    unfold bind at 1. rewrite Hshow. exact Hrec.
  - intros Hpw. apply password_accepted_iff in Hpw.
    unfold ai_calls. rewrite Hobs, Hpw, Hsilent, flat_map_app.
    destruct (generate_content E _ _) as [text|e];
      [destruct (Py.truthy text)|]; reflexivity.
  - intros Hpw. unfold ai_calls. rewrite Hobs, Hsilent.
    destruct (Py.truthy (CORRECT_PASSWORD E)
              && Py.str_eqb (app_password_input f) (CORRECT_PASSWORD E)) eqn:Hc;
      [|reflexivity].
    apply password_accepted_iff in Hc. contradiction.
Qed.

Lemma recommendation_iff_password_witness :
  let E := example_env (Raise unidentified_image) []
             (Ok (example_response 200 (Ok found_body)))
             (Ok two_lines) posix (py "s3cret") in
  let f := example_form (py "wrong") in
  exists w2 w3 w',
    lookup_succeeds E f world0 (py "0000000000123") test_kibble w2 /\
    nutrition_displayed E test_kibble w2 w3 /\
    on_submit E f world0 = (w', Ok tt) /\
    extends w3 w' /\
    ai_calls w' = [].
Proof.
  intros E f.
  assert (H : lookup_succeeds E f world0 (py "0000000000123") test_kibble
                (fst (fetch_nutrition E (py "0000000000123")
                        (fst (check_dog_details f
                                (fst (resolve_barcode E f world0))))))).
  { split; [reflexivity|]. eexists. repeat split; reflexivity. }
  destruct (recommendation_iff_password E f world0 (py "0000000000123")
              test_kibble _ H) as (w3 & w' & _ & Hd & Hrun & Hext & _ & Hno).
  eexists _, w3, w'.
  split; [exact H|]. split; [exact Hd|]. split; [exact Hrun|].
  split; [exact Hext|].
  apply Hno. intros [_ Heq]. vm_compute in Heq. discriminate.
Defined.

(** C8, as stated, fails: a lookup that succeeds with a product entry that
    is a string, not a record, passes the truth test of line 150, and the
    submission then ends with the [AttributeError] of line 152, before the
    password is looked at. *)
Lemma truthy_lookup_result_faults :
  snd (get_nutrition_data
         (example_env (Raise unidentified_image) []
            (Ok (example_response 200 (Ok odd_body)))
            (Ok two_lines) posix (py "s3cret"))
         (OStr (py "0000000000123")) world0) = Ok (JStr (py "kibble")) /\
  snd (on_submit
         (example_env (Raise unidentified_image) []
            (Ok (example_response 200 (Ok odd_body)))
            (Ok two_lines) posix (py "s3cret"))
         (example_form (py "s3cret")) world0) =
    Raise {| exc_cls := AttributeError;
             exc_msg := py "'str' object has no attribute 'items'" |} /\
  ai_calls (fst (on_submit
                   (example_env (Raise unidentified_image) []
                      (Ok (example_response 200 (Ok odd_body)))
                      (Ok two_lines) posix (py "s3cret"))
                   (example_form (py "s3cret")) world0)) = [].
Proof. repeat split; vm_compute; reflexivity. Qed.

(** Replacing ["\n"] by a space leaves no newline. *)
Lemma replace_from_newline (text : Py.str) (skip : nat) :
  ~ In 10%N (Py.replace_from [10%N] [32%N] text skip).
Proof.
  revert skip. induction text as [|c t IH]; intros skip;
    cbn [Py.replace_from]; [intros []|].
  destruct skip as [|k]; [|apply IH].
  cbn [Py.startswith List.length Nat.sub app]. rewrite andb_true_r.
  destruct (N.eqb_spec 10 c) as [<-|Hc]; cbn [In].
  - intros [H|H]; [discriminate|]. exact (IH _ H).
  - intros [H|H]; [congruence|]. exact (IH _ H).
Qed.

(** X22.  A run of the submission writes one log record when the model
    answers with a text that is not empty (the test of line 174) and none
    otherwise.  The record ends with that text in which every occurrence
    of the line separator of the platform, [os.linesep], is replaced by a
    space; where that separator is the newline character, no newline is
    left in it. *)
Theorem log_once_per_recommendation (E : env) (f : form) (w : world) :
  let w' := fst (on_submit E f w) in
  ((recommendations w' = recommendations w /\ log_records w' = log_records w) \/
   (exists b nutr text,
      recommendations w' = text :: recommendations w /\
      log_records w' =
        log_message E b (dog_info_dict f) nutr text :: log_records w)) /\
  (forall b dog nutr text,
     exists head,
       log_message E b dog nutr text =
         head ++ py "Recommendation: "
         ++ Py.replace text (os_linesep (os_platform E)) (py " ")) /\
  (os_platform E = posix ->
   forall text,
     ~ In 10%N (Py.replace text (os_linesep (os_platform E)) (py " "))).
Proof.
  intros w'. subst w'. split; [|split].
  - destruct (on_submit E f w) as [w' r] eqn:Hrun. cbn [fst].
    destruct (on_submit_observed E f w w' r Hrun)
      as [Hsame|(b & nutr & w3 & Hsilent & Hrec)].
    + left. unfold recommendations, log_records. now rewrite Hsame.
    + destruct (recommend_run E b (dog_info_dict f) nutr (app_password_input f) w3)
        as (w'' & Hrec' & _ & Hobs).
      rewrite Hrec in Hrec'. inversion Hrec'; subst w''. clear Hrec'.
      unfold recommendations, log_records. rewrite Hobs, Hsilent.
      destruct (Py.truthy (CORRECT_PASSWORD E)
                && Py.str_eqb (app_password_input f) (CORRECT_PASSWORD E));
        [|left; split; reflexivity].
      destruct (generate_content E _ _) as [text|e];
        [|left; split; reflexivity].
      destruct (Py.truthy text) eqn:Htext.
      * right. exists b, nutr, text. cbn. rewrite Htext. split; reflexivity.
      * left. cbn. rewrite Htext. split; reflexivity.
  - intros b dog nutr text. unfold log_message.
    eexists. rewrite !app_assoc. reflexivity.
  - intros Hposix text. rewrite Hposix. apply replace_from_newline.
Qed.

Lemma log_once_per_recommendation_witness :
  let E := example_env (Raise unidentified_image) []
             (Ok (example_response 200 (Ok found_body)))
             (Ok two_lines) posix (py "s3cret") in
  os_platform E = posix /\
  ~ In 10%N (Py.replace two_lines (os_linesep (os_platform E)) (py " ")).
Proof.
  intros E. split; [reflexivity|].
  exact (proj2 (proj2 (log_once_per_recommendation E (example_form (py "s3cret"))
                         world0))
               eq_refl two_lines).
Defined.

(** C9.  The code misses what the claim says where [os.linesep] is
    ["\r\n"] (Windows): line 47 replaces [os.linesep], not the newline
    character, so the newline of a recommendation of two lines is written
    to the log as it is. *)
Lemma newline_kept_where_linesep_is_crlf :
  log_records
    (fst (on_submit
            (example_env (Raise unidentified_image) []
               (Ok (example_response 200 (Ok found_body)))
               (Ok two_lines) nt (py "s3cret"))
            (example_form (py "s3cret")) world0)) =
  [py "Interaction Log:" ++ [10%N; 9%N]
   ++ py "Barcode: 0000000000123" ++ [10%N; 9%N]
   ++ py "Dog Info: {'breed': 'Labrador'}" ++ [10%N; 9%N]
   ++ py "Nutrition Data: {'product_name': 'Test Kibble', 'brands': None}" ++ [10%N; 9%N]
   ++ py "Recommendation: Feed 200 g" ++ [10%N] ++ py "twice a day"].
Proof. vm_compute. reflexivity. Qed.

(** The scenario of a whole submission: the barcode ["0000000000123"] is
    looked up as [123], the record of "Test Kibble" is shown, and with the
    right password the model is asked once, with a prompt that names the
    product and the breed, and one record is logged. *)
Example submission_end_to_end :
  let E := example_env (Raise unidentified_image) []
             (Ok (example_response 200 (Ok found_body)))
             (Ok two_lines) posix (py "s3cret") in
  let w' := fst (on_submit E (example_form (py "s3cret")) world0) in
  snd (on_submit E (example_form (py "s3cret")) world0) = Ok tt /\
  http_requests w' = [(api_url_of (py "123"), api_headers)] /\
  (exists prompt, ai_calls w' = [prompt] /\
     Py.contains (py "Test Kibble") prompt = true /\
     Py.contains (py "Labrador") prompt = true) /\
  recommendations w' = [two_lines] /\
  log_records w' =
    [py "Interaction Log:" ++ [10%N; 9%N]
     ++ py "Barcode: 0000000000123" ++ [10%N; 9%N]
     ++ py "Dog Info: {'breed': 'Labrador'}" ++ [10%N; 9%N]
     ++ py "Nutrition Data: {'product_name': 'Test Kibble', 'brands': None}" ++ [10%N; 9%N]
     ++ py "Recommendation: Feed 200 g twice a day"].
Proof.
  repeat split; try (vm_compute; reflexivity).
  eexists. repeat split; vm_compute; reflexivity.
Qed.

(* ================================================================== *)
(** ** More on the normaliser *)

Lemma zeros_app (j k : nat) : zeros j ++ zeros k = zeros (j + k).
Proof. unfold zeros. now rewrite repeat_app. Qed.

Lemma zeros_snoc (k : nat) : zeros (S k) = zeros k ++ [zero].
Proof.
  unfold zeros. induction k as [|k IH]; [reflexivity|].
  simpl in *. now rewrite <- IH.
Qed.

(** X1.  The result of the normaliser is ["0"] or does not begin with
    ['0']. *)
Theorem strip_leading_zeros_normal_form (s : Py.str) :
  exists r,
    strip_leading_zeros (OStr s) = Ok r /\ (r = py "0" \/ no_leading_zero r).
Proof.
  exists (strip_leading_zeros_str s). split; [reflexivity|].
  destruct (leading_zeros_split s) as (k & r & -> & Hr).
  rewrite (strip_leading_zeros_str_split k r Hr).
  destruct r as [|c t]; [destruct k|]; auto.
Qed.

(** X2.  A string that does not begin with ['0'] is returned as it is. *)
Theorem strip_leading_zeros_keeps_normal (s : Py.str) :
  no_leading_zero s -> strip_leading_zeros (OStr s) = Ok s.
Proof.
  intros Hs. rewrite strip_leading_zeros_OStr. f_equal.
  pose proof (strip_leading_zeros_str_split 0 s Hs) as H. cbn [zeros repeat app] in H.
  rewrite H. now destruct s.
Qed.

Lemma strip_leading_zeros_keeps_normal_witness :
  strip_leading_zeros (OStr (py "4900002891")) = Ok (py "4900002891").
Proof.
  apply strip_leading_zeros_keeps_normal. vm_compute. discriminate.
Defined.

(** X3.  The normaliser only removes leading ['0'] characters: its
    argument is some zeros followed by its result. *)
Theorem strip_leading_zeros_removes_zeros_only (s : Py.str) :
  exists k r, strip_leading_zeros (OStr s) = Ok r /\ s = zeros k ++ r.
Proof.
  destruct (leading_zeros_split s) as (k & r & -> & Hr).
  rewrite strip_leading_zeros_OStr,
    (strip_leading_zeros_str_split k r Hr).
  destruct r as [|c t].
  - destruct k as [|k].
    + exists 0, []. split; reflexivity.
    + exists k, (py "0"). split; [reflexivity|].
      rewrite app_nil_r. apply zeros_snoc.
  - exists k, (c :: t). split; reflexivity.
Qed.

Lemma strip_leading_zeros_str_padded (k : nat) (s : Py.str) :
  s <> [] ->
  strip_leading_zeros_str (zeros k ++ s) = strip_leading_zeros_str s.
Proof.
  intros Hs. destruct (leading_zeros_split s) as (j & r & -> & Hr).
  rewrite app_assoc, zeros_app,
    (strip_leading_zeros_str_split (k + j) r Hr),
    (strip_leading_zeros_str_split j r Hr).
  destruct r as [|c t]; [|reflexivity].
  destruct j as [|j]; [now elim Hs|].
  now rewrite Nat.add_succ_r.
Qed.

Lemma get_nutrition_data_same_normal (E : env) (s1 s2 : Py.str) (w : world) :
  strip_leading_zeros_str s1 = strip_leading_zeros_str s2 ->
  get_nutrition_data E (OStr s1) w = get_nutrition_data E (OStr s2) w.
Proof.
  intros H. unfold get_nutrition_data. run_monad.
  cbn [py_str strip_leading_zeros isinstance_str negb]. now rewrite H.
Qed.

(** X4.  Zeros put in front of a barcode that is not empty change neither
    its normal form nor the lookup: the same request is sent and the same
    result comes back. *)
Theorem leading_zeros_do_not_change_lookup
    (E : env) (k : nat) (s : Py.str) (w : world) :
  s <> [] ->
  strip_leading_zeros (OStr (zeros k ++ s)) = strip_leading_zeros (OStr s) /\
  get_nutrition_data E (OStr (zeros k ++ s)) w = get_nutrition_data E (OStr s) w.
Proof.
  intros Hs. pose proof (strip_leading_zeros_str_padded k s Hs) as H.
  split.
  - rewrite !strip_leading_zeros_OStr. now rewrite H.
  - now apply get_nutrition_data_same_normal.
Qed.

Lemma leading_zeros_do_not_change_lookup_witness :
  get_nutrition_data (lookup_env (Ok (example_response 200 (Ok found_body))))
                     (OStr (zeros 3 ++ py "123")) world0 =
  get_nutrition_data (lookup_env (Ok (example_response 200 (Ok found_body))))
                     (OStr (py "123")) world0.
Proof.
  apply leading_zeros_do_not_change_lookup. vm_compute. discriminate.
Defined.

(* ================================================================== *)
(** ** More on the lookup *)

(** The run of [get_nutrition_data] on a string, step by step. *)
Lemma get_nutrition_data_cases (E : env) (s : Py.str) (w : world) :
  get_nutrition_data E (OStr s) w =
  let w1 := with_event (HttpGet (api_url_of s) api_headers) w in
  match requests_get E (api_url_of s) api_headers with
  | Raise e => lookup_except e w1
  | Ok r =>
      match raise_for_status r with
      | Raise e => lookup_except e w1
      | Ok _ =>
          match json_body r with
          | Raise e => lookup_except e w1
          | Ok data =>
              match json_get data (py "status") with
              | Raise e => lookup_except e w1
              | Ok status =>
                  if json_eq_int status 1 && json_contains data (py "product")
                  then match json_getitem data (py "product") with
                       | Ok product => (w1, Ok product)
                       | Raise e => lookup_except e w1
                       end
                  else (w1, Ok JNull)
              end
          end
      end
  end.
Proof.
  unfold get_nutrition_data, api_url_of, lookup_except. run_monad.
  cbn [py_str strip_leading_zeros isinstance_str negb].
  destruct (requests_get E _ api_headers) as [r|e].
  - destruct (raise_for_status r) as [[]|e].
    + destruct (json_body r) as [data|e].
      * destruct (json_get data (py "status")) as [st|e].
        -- destruct (json_eq_int st 1 && json_contains data (py "product"));
             [destruct (json_getitem data (py "product")) as [p|e]|];
             try reflexivity.
           destruct (is_RequestException e); [reflexivity|].
           destruct (is_JSONDecodeError e); reflexivity.
        -- destruct (is_RequestException e); [reflexivity|].
           destruct (is_JSONDecodeError e); reflexivity.
      * destruct (is_RequestException e); [reflexivity|].
        destruct (is_JSONDecodeError e); reflexivity.
    + destruct (is_RequestException e); [reflexivity|].
      destruct (is_JSONDecodeError e); reflexivity.
  - destruct (is_RequestException e); [reflexivity|].
    destruct (is_JSONDecodeError e); reflexivity.
Qed.

Lemma lookup_except_raise (e e' : exn) (w w' : world) :
  lookup_except e w = (w', Raise e') ->
  e' = e /\ is_RequestException e = false /\ is_JSONDecodeError e = false.
Proof.
  unfold lookup_except.
  destruct (is_RequestException e); [discriminate|].
  destruct (is_JSONDecodeError e); [discriminate|].
  intros H. inversion H. auto.
Qed.

Lemma lookup_except_value (e : exn) (w w' : world) (v : json) :
  lookup_except e w = (w', Ok v) -> v = JNull.
Proof.
  unfold lookup_except.
  destruct (is_RequestException e); [intros H; now inversion H|].
  destruct (is_JSONDecodeError e); intros H; now inversion H.
Qed.

(** X5.  An exception that leaves [get_nutrition_data], once [str()] of
    the argument has succeeded, is never a [RequestException] and never a
    [JSONDecodeError]: those are always turned into [None]. *)
Theorem get_nutrition_data_escaping_exception
    (E : env) (v : object) (s : Py.str) (w : world) (e : exn) :
  py_str v = Ok s ->
  snd (get_nutrition_data E v w) = Raise e ->
  is_RequestException e = false /\ is_JSONDecodeError e = false.
Proof.
  intros Hv. rewrite (get_nutrition_data_of_str E v s w Hv),
    get_nutrition_data_cases. cbv zeta.
  set (w1 := with_event _ w).
  assert (Hx : forall e0, snd (lookup_except e0 w1) = Raise e ->
                 is_RequestException e = false /\ is_JSONDecodeError e = false).
  { intros e0 H. destruct (lookup_except e0 w1) as [w' r] eqn:Hl.
    cbn in H. subst r. apply lookup_except_raise in Hl as (-> & H1 & H2). auto. }
  destruct (requests_get E _ _) as [r|e0]; [|apply Hx].
  destruct (raise_for_status r) as [[]|e0]; [|apply Hx].
  destruct (json_body r) as [data|e0]; [|apply Hx].
  destruct (json_get data _) as [st|e0]; [|apply Hx].
  destruct (json_eq_int st 1 && json_contains data _); [|discriminate].
  destruct (json_getitem data _) as [p|e0]; [discriminate|apply Hx].
Qed.

Lemma get_nutrition_data_escaping_exception_witness :
  exists e,
    snd (get_nutrition_data
           (lookup_env (Ok (example_response 200 (Ok (JList [])))))
           (OStr (py "123")) world0) = Raise e /\
    is_RequestException e = false /\ is_JSONDecodeError e = false.
Proof.
  eexists. split; [reflexivity|].
  apply (get_nutrition_data_escaping_exception
           (lookup_env (Ok (example_response 200 (Ok (JList [])))))
           (OStr (py "123")) (py "123") world0); reflexivity.
Defined.

(** X6.  When [requests.get] itself fails with a [RequestException] (no
    connection, a timeout), the lookup prints the failure and returns
    [None]; the request is not tried again. *)
Theorem get_nutrition_data_transport_failure
    (E : env) (v : object) (s : Py.str) (w : world) (e : exn) :
  py_str v = Ok s ->
  requests_get E (api_url_of s) api_headers = Raise e ->
  is_RequestException e = true ->
  get_nutrition_data E v w =
    (with_event (Print (py "API request failed: " ++ exc_msg e))
       (with_event (HttpGet (api_url_of s) api_headers) w),
     Ok JNull).
Proof.
  intros Hv Hget He.
  rewrite (get_nutrition_data_of_str E v s w Hv), get_nutrition_data_cases.
  cbv zeta. rewrite Hget. unfold lookup_except. now rewrite He.
Qed.

Lemma get_nutrition_data_transport_failure_witness :
  snd (get_nutrition_data
         (lookup_env (Raise {| exc_cls := RequestException;
                               exc_msg := py "Connection refused" |}))
         (OStr (py "123")) world0) = Ok JNull.
Proof.
  exact (f_equal snd
           (get_nutrition_data_transport_failure
              (lookup_env (Raise {| exc_cls := RequestException;
                                    exc_msg := py "Connection refused" |}))
              (OStr (py "123")) (py "123") world0 _ eq_refl eq_refl eq_refl)).
Defined.

(** X7.  A result of the lookup that is not [None] is the [product] entry
    of a response that passed the status check, whose body is a JSON
    object with a [status] equal to 1. *)
Theorem get_nutrition_data_result_is_product
    (E : env) (v : object) (s : Py.str) (w w' : world) (product : json) :
  py_str v = Ok s ->
  get_nutrition_data E v w = (w', Ok product) ->
  product <> JNull ->
  exists r d status,
    requests_get E (api_url_of s) api_headers = Ok r /\
    raise_for_status r = Ok tt /\
    json_body r = Ok (JDict d) /\
    dict_lookup d (py "status") = Some status /\
    json_eq_int status 1 = true /\
    dict_lookup d (py "product") = Some product.
Proof.
  intros Hv. rewrite (get_nutrition_data_of_str E v s w Hv),
    get_nutrition_data_cases. cbv zeta.
  set (w1 := with_event _ w). intros Hrun Hp.
  assert (Hx : forall e0, lookup_except e0 w1 = (w', Ok product) -> False).
  { intros e0 H. apply lookup_except_value in H. contradiction. }
  destruct (requests_get E _ _) as [r|e0]; [|now apply Hx in Hrun].
  destruct (raise_for_status r) as [[]|e0] eqn:Hst; [|now apply Hx in Hrun].
  destruct (json_body r) as [data|e0] eqn:Hbody; [|now apply Hx in Hrun].
  destruct data as [| | | | | |d]; cbn [json_get] in Hrun;
    try (now apply Hx in Hrun).
  cbn [json_contains json_getitem] in Hrun. unfold dict_contains in Hrun.
  destruct (dict_lookup d (py "status")) as [st|] eqn:Hs;
    [|cbn in Hrun; inversion Hrun; congruence].
  destruct (json_eq_int st 1) eqn:H1;
    [|cbn in Hrun; inversion Hrun; congruence].
  destruct (dict_lookup d (py "product")) as [p|] eqn:Hprod;
    cbn in Hrun; inversion Hrun; [|congruence].
  subst. exists r, d, st. auto 10.
Qed.

Lemma get_nutrition_data_result_is_product_witness :
  exists r d status,
    requests_get (lookup_env (Ok (example_response 200 (Ok found_body))))
                 (api_url_of (py "123")) api_headers = Ok r /\
    raise_for_status r = Ok tt /\
    json_body r = Ok (JDict d) /\
    dict_lookup d (py "status") = Some status /\
    json_eq_int status 1 = true /\
    dict_lookup d (py "product") = Some (JDict test_kibble).
Proof.
  apply (get_nutrition_data_result_is_product
           (lookup_env (Ok (example_response 200 (Ok found_body))))
           (OStr (py "123")) (py "123") world0
           (with_event (HttpGet (api_url_of (py "123")) api_headers) world0)
           (JDict test_kibble)); [reflexivity|reflexivity|discriminate].
Defined.

(** X8.  Only a status from 400 to 599 is a failure for the lookup: a
    response with any other status, a redirect for one, is read like a
    successful one. *)
Theorem get_nutrition_data_other_status
    (E : env) (v : object) (s : Py.str) (w : world) (r : Response)
    (d : list (Py.str * json)) :
  py_str v = Ok s ->
  requests_get E (api_url_of s) api_headers = Ok r ->
  (status_code r < 400 \/ 600 <= status_code r)%Z ->
  json_body r = Ok (JDict d) ->
  get_nutrition_data E v w =
    (with_event (HttpGet (api_url_of s) api_headers) w,
     Ok (match dict_lookup d (py "status"), dict_lookup d (py "product") with
         | Some status, Some product =>
             if json_eq_int status 1 then product else JNull
         | _, _ => JNull
         end)).
Proof.
  intros Hv Hget Hst Hbody.
  assert (Hok : raise_for_status r = Ok tt).
  { unfold raise_for_status.
    destruct (Z.leb_spec 400 (status_code r)), (Z.ltb_spec (status_code r) 500),
      (Z.leb_spec 500 (status_code r)), (Z.ltb_spec (status_code r) 600);
      cbn [andb]; try reflexivity; lia. }
  rewrite (get_nutrition_data_of_str E v s w Hv), get_nutrition_data_cases.
  cbv zeta. rewrite Hget, Hok, Hbody.
  cbn [json_get json_contains json_getitem]. unfold dict_contains.
  destruct (dict_lookup d (py "status")) as [st|];
    destruct (dict_lookup d (py "product")) as [p|]; cbn [json_eq_int];
    try destruct (json_eq_int st 1); reflexivity.
Qed.

Lemma get_nutrition_data_other_status_witness :
  snd (get_nutrition_data
         (lookup_env (Ok (example_response 302 (Ok found_body))))
         (OStr (py "123")) world0) = Ok (JDict test_kibble).
Proof.
  refine (f_equal snd
            (get_nutrition_data_other_status
               (lookup_env (Ok (example_response 302 (Ok found_body))))
               (OStr (py "123")) (py "123") world0
               (example_response 302 (Ok found_body))
               [(py "status", JInt 1); (py "product", JDict test_kibble)]
               _ _ _ _));
    try reflexivity.
  left. simpl. lia.
Defined.

(* ================================================================== *)
(** ** Steps that keep a reading of the world, and steps that cannot fail *)

Lemma preserves_ret {A X} (f : world -> X) (a : A) : preserves f (ret a).
Proof. intros w. reflexivity. Qed.

Lemma preserves_lift {A X} (f : world -> X) (r : result A) :
  preserves f (lift r).
Proof. intros w. reflexivity. Qed.

Lemma preserves_bind {A B X} (f : world -> X) (m : M A) (k : A -> M B) :
  preserves f m -> (forall a, preserves f (k a)) -> preserves f (bind m k).
Proof.
  intros Hm Hk w. unfold bind. specialize (Hm w).
  destruct (m w) as [w1 [a|e]]; cbn [fst] in *; [|exact Hm].
  now rewrite Hk.
Qed.

Lemma preserves_try_except {A X} (f : world -> X) (body : M A)
    (handler : exn -> option (M A)) :
  preserves f body ->
  (forall e, match handler e with Some h => preserves f h | None => True end) ->
  preserves f (try_except body handler).
Proof.
  intros Hb Hh w. unfold try_except. specialize (Hb w).
  destruct (body w) as [w1 [a|e]]; cbn [fst] in *; [exact Hb|].
  specialize (Hh e). destruct (handler e) as [h|]; [|exact Hb].
  now rewrite Hh.
Qed.

Lemma preserves_try_finally {A X} (f : world -> X) (body : M A) (fin : M unit) :
  preserves f body -> preserves f fin -> preserves f (try_finally body fin).
Proof.
  intros Hb Hf w. unfold try_finally. specialize (Hb w).
  destruct (body w) as [w1 r]. specialize (Hf w1).
  destruct (fin w1) as [w2 [[]|e]]; cbn [fst] in *; congruence.
Qed.

Lemma preserves_attempt {A X} (f : world -> X) (m : M A) :
  preserves f m -> preserves f (attempt m).
Proof.
  intros Hm w. unfold attempt. specialize (Hm w).
  now destruct (m w) as [w1 r].
Qed.

Lemma preserves_tmpfiles_emit (ev : event) : preserves tmpfiles (emit ev).
Proof. intros w. reflexivity. Qed.

Lemma preserves_http_emit (ev : event) :
  match ev with HttpGet _ _ => False | _ => True end ->
  preserves http_requests (emit ev).
Proof. intros H w. unfold http_requests, emit. destruct ev; easy. Qed.

Lemma preserves_http_create_file (p : Py.str) :
  preserves http_requests (create_file p).
Proof. intros w. reflexivity. Qed.

Lemma preserves_http_os_path_exists (p : Py.str) :
  preserves http_requests (os_path_exists p).
Proof. intros w. reflexivity. Qed.

Lemma preserves_http_os_remove (p : Py.str) :
  preserves http_requests (os_remove p).
Proof.
  intros w. unfold os_remove.
  destruct (existsb (Py.str_eqb p) (tmpfiles w)); reflexivity.
Qed.

Ltac keep :=
  repeat first
    [ apply preserves_ret
    | apply preserves_lift
    | apply preserves_tmpfiles_emit
    | apply preserves_http_emit; exact I
    | apply preserves_http_create_file
    | apply preserves_http_os_path_exists
    | apply preserves_http_os_remove
    | apply preserves_attempt
    | apply preserves_bind; [|intros ?]
    | apply preserves_try_finally
    | apply preserves_try_except; [|intros ?; cbv beta]
    | exact I
    | match goal with
      | |- preserves _ (match ?x with _ => _ end) => destruct x
      | |- match (if ?c then _ else _) with _ => _ end => destruct c
      | |- preserves _ (let _ := _ in _) => cbv zeta
      end ].

Lemma never_raises_ret {A} (a : A) : never_raises (ret a).
Proof. intros w. now exists a. Qed.

Lemma never_raises_emit (ev : event) : never_raises (emit ev).
Proof. intros w. now exists tt. Qed.

Lemma never_raises_bind {A B} (m : M A) (k : A -> M B) :
  never_raises m -> (forall a, never_raises (k a)) -> never_raises (bind m k).
Proof.
  intros Hm Hk w. unfold bind. destruct (Hm w) as (a & Ha).
  destruct (m w) as [w1 r]. cbn [snd] in Ha. subst r. apply Hk.
Qed.

Lemma never_raises_attempt {A} (m : M A) : never_raises (attempt m).
Proof. intros w. unfold attempt. destruct (m w) as [w1 r]. now exists r. Qed.

(** A [try] whose handler takes every exception and cannot fail. *)
Lemma never_raises_try_except {A} (body : M A) (handler : exn -> option (M A)) :
  (forall e, exists h, handler e = Some h /\ never_raises h) ->
  never_raises (try_except body handler).
Proof.
  intros Hh w. unfold try_except. destruct (body w) as [w1 [a|e]].
  - now exists a.
  - destruct (Hh e) as (h & -> & Hn). apply Hn.
Qed.

Lemma never_raises_try_finally {A} (body : M A) (fin : M unit) :
  never_raises body -> never_raises fin -> never_raises (try_finally body fin).
Proof.
  intros Hb Hf w. unfold try_finally. destruct (Hb w) as (a & Ha).
  destruct (body w) as [w1 r]. cbn [snd] in Ha. subst r.
  destruct (Hf w1) as ([] & Hu). destruct (fin w1) as [w2 rf].
  cbn [snd] in Hu. subst rf. now exists a.
Qed.

(** The [finally] clause of [process_image_input] removes the file only
    when it is there, so it cannot fail. *)
Lemma never_raises_cleanup (p : Py.str) :
  never_raises (there <- os_path_exists p ;;
                if Py.truthy p && there then os_remove p else ret tt).
Proof.
  intros w. unfold bind, os_path_exists, os_remove, ret.
  destruct (Py.truthy p); cbn [andb]; [|now exists tt].
  destruct (existsb (Py.str_eqb p) (tmpfiles w)) eqn:H; [|now exists tt].
  rewrite H. now exists tt.
Qed.

(* ================================================================== *)
(** ** More on the decoder *)

Lemma never_raises_process_image_input (E : env) (content : bytes) :
  never_raises (process_image_input E content).
Proof.
  unfold process_image_input.
  apply never_raises_bind; [apply never_raises_attempt|].
  intros [tmp|e].
  - apply never_raises_try_finally; [|apply never_raises_cleanup].
    apply never_raises_try_except. intros e. eexists. split; [reflexivity|].
    apply never_raises_bind; [apply never_raises_emit|].
    intros _. apply never_raises_ret.
  - apply never_raises_bind; [apply never_raises_emit|].
    intros _. apply never_raises_ret.
Qed.

(** X9.  No exception leaves [process_image_input], whatever creating and
    writing the temporary file, PIL and pyzbar do.  (Taken not to fail:
    the calls that show a message, and [os.remove] on the temporary file
    that exists.) *)
Theorem process_image_input_never_raises
    (E : env) (content : bytes) (w : world) :
  exists r, snd (process_image_input E content w) = Ok r.
Proof. apply never_raises_process_image_input. Qed.

Lemma preserves_tmpfiles_scan (E : env) (path_image : Py.str) :
  preserves tmpfiles (scan_barcode_from_image E path_image).
Proof. unfold scan_barcode_from_image, load_image, print. keep. Qed.




(** X11.  When the upload has been stored in a temporary file,
    [process_image_input] removes that file before it returns, whether
    the scan finds a barcode, finds none or fails, and touches no other
    file. *)
Theorem process_image_input_removes_temp_file
    (E : env) (content : bytes) (tmp : Py.str) (w : world) :
  NamedTemporaryFile E (py ".png") = Ok tmp ->
  tmp_write E tmp content = Ok tt ->
  tmp <> [] ->
  forall q,
    In q (tmpfiles (fst (process_image_input E content w))) <->
    In q (tmpfiles w) /\ q <> tmp.
Proof.
  intros Htmp Hwrite Hne q. apply truthy_nonempty in Hne.
  unfold process_image_input.
  unfold bind at 1. unfold attempt.
  unfold bind at 1. unfold lift at 1. rewrite Htmp.
  unfold bind at 1. unfold create_file at 1.
  unfold bind at 1. unfold lift at 1. rewrite Hwrite.
  unfold ret at 1. unfold try_finally.
  match goal with
  | |- context [try_except ?body ?h ?w1] =>
      assert (Hk : preserves tmpfiles (try_except body h))
        by (keep; try apply preserves_tmpfiles_scan; keep);
      specialize (Hk w1);
      destruct (try_except body h w1) as [ws r]
  end.
  cbn [fst tmpfiles] in Hk.
  unfold bind, os_path_exists, os_remove. rewrite Hk, Hne.
  cbn [existsb]. rewrite str_eqb_refl. cbn [orb andb fst tmpfiles].
  rewrite Hk. cbn [existsb]. rewrite str_eqb_refl. cbn [orb fst tmpfiles filter].
  rewrite str_eqb_refl. cbn [negb].
  rewrite filter_In, negb_true_iff.
  split.
  - intros (Hin & Hq). split; [exact Hin|].
    intros ->. now rewrite str_eqb_refl in Hq.
  - intros (Hin & Hq). split; [exact Hin|].
    destruct (Py.str_eqb tmp q) eqn:Heq; [|reflexivity].
    apply str_eqb_eq in Heq. congruence.
Qed.

Lemma process_image_input_removes_temp_file_witness :
  ~ In (py "/tmp/tmpk3v9.png")
       (tmpfiles (fst (process_image_input
                         (example_env (Raise unidentified_image) []
                            (Raise not_json) (Raise not_json) posix [])
                         (list_byte_of_string "not an image") world0))).
Proof.
  intros H.
  apply (process_image_input_removes_temp_file
           (example_env (Raise unidentified_image) [] (Raise not_json)
                        (Raise not_json) posix [])
           (list_byte_of_string "not an image") (py "/tmp/tmpk3v9.png") world0
           eq_refl eq_refl) in H.
  - destruct H as [[] _].
  - vm_compute. discriminate.
Defined.

(** X12.  When writing the upload to the temporary file fails, the error
    is shown and [None] is returned, and the temporary file stays behind:
    [temp_image_path] is only set after the write, so the [finally]
    clause removes nothing. *)
Theorem process_image_input_write_failure
    (E : env) (content : bytes) (tmp : Py.str) (e : exn) (w : world) :
  NamedTemporaryFile E (py ".png") = Ok tmp ->
  tmp_write E tmp content = Raise e ->
  process_image_input E content w =
    ({| events := StError (py "Error processing image: " ++ exc_msg e) :: events w;
        tmpfiles := tmp :: tmpfiles w |},
     Ok None).
Proof.
  intros Htmp Hwrite. unfold process_image_input.
  unfold bind at 1. unfold attempt.
  unfold bind at 1. unfold lift at 1. rewrite Htmp.
  unfold bind at 1. unfold create_file at 1.
  unfold bind at 1. unfold lift at 1. rewrite Hwrite.
  reflexivity.
Qed.

Lemma process_image_input_write_failure_witness :
  tmpfiles (fst (process_image_input failing_write_env
                   (list_byte_of_string "png") world0)) =
  [py "/tmp/tmpk3v9.png"].
Proof.
  exact (f_equal (fun x => tmpfiles (fst x))
           (process_image_input_write_failure failing_write_env
              (list_byte_of_string "png") (py "/tmp/tmpk3v9.png") disk_full
              world0 eq_refl eq_refl)).
Defined.

Lemma utf8_points_ascii (bs : list N) :
  forallb (fun x => N.ltb x 128) bs = true -> utf8_points bs = Some bs.
Proof.
  induction bs as [|b t IH]; [reflexivity|].
  cbn [forallb]. intros H. apply andb_true_iff in H as [Hb Ht].
  cbn [utf8_points]. rewrite Hb, (IH Ht). reflexivity.
Qed.

(** X13.  A first symbol whose payload is ASCII, as the digits of a
    product barcode are, is returned character for character. *)
Theorem scan_barcode_from_image_ascii
    (E : env) (path_image : Py.str) (image : Image)
    (first : Decoded) (rest : list Decoded) (w : world) :
  Image_open E path_image = Ok image ->
  decode E image = Ok (first :: rest) ->
  is_ascii (data first) = true ->
  snd (scan_barcode_from_image E path_image w) =
    Ok (Some (List.map Byte.to_N (data first))).
Proof.
  intros Hopen Hdec Hascii.
  assert (Hutf : decode_utf8 (data first) = Some (List.map Byte.to_N (data first))).
  { unfold decode_utf8. apply utf8_points_ascii.
    unfold is_ascii in Hascii. revert Hascii.
    induction (data first) as [|x t IH]; cbn [forallb List.map]; [easy|].
    intros H. apply andb_true_iff in H as [Hx Ht]. now rewrite Hx, IH. }
  unfold scan_barcode_from_image, load_image. run_monad.
  rewrite Hopen, Hdec. cbn [fst snd]. now rewrite Hutf.
Qed.

Lemma scan_barcode_from_image_ascii_witness :
  snd (scan_barcode_from_image
         (example_env (Ok example_image) [example_symbol]
                      (Raise not_json) (Raise not_json) posix [])
         (py "/tmp/tmpk3v9.png") world0) =
    Ok (Some (List.map Byte.to_N (data example_symbol))).
Proof.
  exact (scan_barcode_from_image_ascii
           (example_env (Ok example_image) [example_symbol]
                        (Raise not_json) (Raise not_json) posix [])
           (py "/tmp/tmpk3v9.png") example_image example_symbol [] world0
           eq_refl eq_refl eq_refl).
Defined.

(* ================================================================== *)
(** ** More on the submission *)

Lemma never_raises_fetch_nutrition (E : env) (b : Py.str) :
  never_raises (fetch_nutrition E b).
Proof.
  unfold fetch_nutrition.
  apply never_raises_bind; [apply never_raises_emit|]. intros _.
  apply never_raises_try_except. intros e. eexists. split; [reflexivity|].
  apply never_raises_bind; [apply never_raises_emit|].
  intros _. apply never_raises_ret.
Qed.

Lemma preserves_http_scan (E : env) (path_image : Py.str) :
  preserves http_requests (scan_barcode_from_image E path_image).
Proof. unfold scan_barcode_from_image, load_image, print. keep. Qed.

Lemma preserves_http_process_image_input (E : env) (content : bytes) :
  preserves http_requests (process_image_input E content).
Proof.
  unfold process_image_input. keep.
  all: try apply preserves_http_scan; keep.
Qed.

Lemma preserves_http_resolve_barcode (E : env) (f : form) :
  preserves http_requests (resolve_barcode E f).
Proof.
  unfold resolve_barcode. keep.
  all: try apply preserves_http_process_image_input; keep.
Qed.

Lemma preserves_http_check_dog_details (f : form) :
  preserves http_requests (check_dog_details f).
Proof. unfold check_dog_details. keep. Qed.

Lemma preserves_http_show_nutrition (E : env) (nutrition_info : json) :
  preserves http_requests (show_nutrition E nutrition_info).
Proof. unfold show_nutrition. keep. Qed.

Lemma preserves_http_create_response (E : env) (self : ai_agent)
    (food : json) (dog : dog_info) :
  preserves http_requests (create_response E self food dog).
Proof.
  intros w. unfold create_response. run_monad.
  destruct (generate_content E _ _); reflexivity.
Qed.

Lemma preserves_http_recommend (E : env) (b : Py.str) (dog : dog_info)
    (nutr : json) (input : Py.str) :
  preserves http_requests (recommend E b dog nutr input).
Proof.
  unfold recommend, log_interaction. keep.
  all: try apply preserves_http_create_response; keep.
Qed.

(** The lookup of a submission sends the one request of
    [get_nutrition_data]. *)
Lemma fetch_nutrition_http (E : env) (b : Py.str) (w : world) :
  http_requests (fst (fetch_nutrition E b w)) =
  (api_url_of b, api_headers) :: http_requests w.
Proof.
  unfold fetch_nutrition. unfold bind at 1. unfold emit at 1.
  unfold try_except.
  set (w0 := {| events := _ :: events w; tmpfiles := tmpfiles w |}).
  pose proof (get_nutrition_data_http E b w0) as H.
  destruct (get_nutrition_data E (OStr b) w0) as [w1 [v|e]];
    cbn [fst] in *; exact H.
Qed.

(** X14.  A submission sends one request to the product database when it
    has a barcode that is not empty in hand, built from that barcode, and
    none otherwise: none without the button, none when no barcode is
    given or detected. *)
Theorem on_submit_requests (E : env) (f : form) (w : world) :
  http_requests (fst (on_submit E f w)) =
  match (if submit_button f then snd (resolve_barcode E f w) else Ok None) with
  | Ok (Some b) =>
      if Py.truthy b
      then (api_url_of b, api_headers) :: http_requests w
      else http_requests w
  | _ => http_requests w
  end.
Proof.
  unfold on_submit. destruct (submit_button f); [|reflexivity].
  unfold bind at 1.
  pose proof (preserves_http_resolve_barcode E f w) as H1.
  destruct (resolve_barcode E f w) as [w1 [ob|e]]; cbn [fst snd] in *;
    [|exact H1].
  destruct ob as [b|]; cbn [opt_truthy]; [|exact H1].
  destruct (Py.truthy b); [|exact H1].
  unfold process_barcode. unfold bind at 1.
  pose proof (preserves_http_check_dog_details f w1) as H2.
  pose proof (check_dog_details_ok f w1) as H2'.
  destruct (check_dog_details f w1) as [wc rc]; cbn [fst snd] in *. subst rc.
  unfold bind at 1.
  pose proof (fetch_nutrition_http E b wc) as H3.
  destruct (fetch_nutrition E b wc) as [w2 [nutr|e]]; cbn [fst snd] in *;
    [|congruence].
  destruct (json_truthy nutr);
    [|rewrite (preserves_http_emit (StError _) I w2); congruence].
  unfold bind at 1.
  pose proof (preserves_http_show_nutrition E nutr w2) as H4.
  destruct (show_nutrition E nutr w2) as [w3 [[]|e]]; cbn [fst snd] in *;
    [|congruence].
  rewrite (preserves_http_recommend E b (dog_info_dict f) nutr
             (app_password_input f) w3).
  congruence.
Qed.

(** X15.  No submission calls the model more than once, and a submission
    whose password is not accepted (none configured, a wrong one, none
    entered) neither calls the model nor writes to the log. *)
Theorem model_needs_password (E : env) (f : form) (w : world) :
  (ai_calls (fst (on_submit E f w)) = ai_calls w \/
   exists prompt, ai_calls (fst (on_submit E f w)) = prompt :: ai_calls w) /\
  (~ password_accepted E f ->
   ai_calls (fst (on_submit E f w)) = ai_calls w /\
   log_records (fst (on_submit E f w)) = log_records w).
Proof.
  destruct (on_submit E f w) as [w' r] eqn:Hrun. cbn [fst].
  destruct (on_submit_observed E f w w' r Hrun)
    as [Hsame|(b & nutr & w3 & Hsilent & Hrec)].
  - unfold ai_calls, log_records. rewrite Hsame. auto.
  - destruct (recommend_run E b (dog_info_dict f) nutr (app_password_input f) w3)
      as (w'' & Hrec' & _ & Hobs).
    rewrite Hrec in Hrec'. inversion Hrec'; subst w''. clear Hrec'.
    unfold ai_calls, log_records. rewrite Hobs, Hsilent.
    destruct (Py.truthy (CORRECT_PASSWORD E)
              && Py.str_eqb (app_password_input f) (CORRECT_PASSWORD E)) eqn:Hc.
    + split.
      * right. rewrite flat_map_app.
        destruct (generate_content E _ _) as [text|e];
          [destruct (Py.truthy text)|]; eexists; reflexivity.
      * intros Hpw. apply password_accepted_iff in Hc. contradiction.
    + auto.
Qed.

Lemma model_needs_password_witness :
  ai_calls (fst (on_submit
                   (example_env (Raise unidentified_image) []
                      (Ok (example_response 200 (Ok found_body)))
                      (Ok two_lines) posix [])
                   (example_form []) world0)) = [] /\
  log_records (fst (on_submit
                      (example_env (Raise unidentified_image) []
                         (Ok (example_response 200 (Ok found_body)))
                         (Ok two_lines) posix [])
                      (example_form []) world0)) = [].
Proof.
  apply (proj2 (model_needs_password
                  (example_env (Raise unidentified_image) []
                     (Ok (example_response 200 (Ok found_body)))
                     (Ok two_lines) posix [])
                  (example_form []) world0)).
  intros [Hconf _]. vm_compute in Hconf. now apply Hconf.
Defined.

Lemma show_nutrition_raise (E : env) (nutr : json) (w : world) (e : exn) :
  snd (show_nutrition E nutr w) = Raise e <->
  (forall d, nutr <> JDict d) /\ e = no_attribute nutr (py "items").
Proof.
  unfold show_nutrition. run_monad.
  destruct nutr as [| | | | | |d]; cbn [json_items fst snd];
    try (split; [intros H; inversion H; split; [discriminate|reflexivity]
                |intros (_ & ->); reflexivity]).
  split.
  - destruct (pd_DataFrame E _); discriminate.
  - intros (H & _). now elim (H d).
Qed.

(** X16.  An exception leaves a submission in two cases only.  Either it
    leaves the step that settles the barcode, which catches every failure
    of the temporary file, PIL and pyzbar in [process_image_input] and
    leaves only its [finally] clause unguarded.  Or the lookup hands back
    a true value that is not a record: it is then the [AttributeError] of
    [nutrition_info.items()] on line 152, which names the type of that
    value.  Every failure of requests, pandas and the model is caught and
    shown.  (The calls that show a message and the logger are taken not to
    fail.) *)
Theorem on_submit_only_fault (E : env) (f : form) (w : world) (e : exn) :
  snd (on_submit E f w) = Raise e <->
  submit_button f = true /\
  (snd (resolve_barcode E f w) = Raise e \/
   exists w1 b w2 nutr,
     resolve_barcode E f w = (w1, Ok (Some b)) /\
     Py.truthy b = true /\
     fetch_nutrition E b (fst (check_dog_details f w1)) = (w2, Ok nutr) /\
     json_truthy nutr = true /\
     (forall d, nutr <> JDict d) /\
     e = no_attribute nutr (py "items")).
Proof.
  unfold on_submit. split.
  - destruct (submit_button f); [|discriminate].
    unfold bind at 1.
    destruct (resolve_barcode E f w) as [w1 [ob|e1]]; cbn [snd];
      [|intros H; inversion H; split; [reflexivity|left; reflexivity]].
    destruct ob as [b|]; cbn [opt_truthy]; [|discriminate].
    destruct (Py.truthy b) eqn:Hb; [|discriminate].
    unfold process_barcode. unfold bind at 1.
    pose proof (check_dog_details_ok f w1) as H2.
    destruct (check_dog_details f w1) as [wc rc] eqn:Hc. cbn [snd] in H2. subst rc.
    unfold bind at 1.
    destruct (never_raises_fetch_nutrition E b wc) as (nutr & H3).
    destruct (fetch_nutrition E b wc) as [w2 r2] eqn:Hf. cbn [snd] in H3. subst r2.
    destruct (json_truthy nutr) eqn:Ht; [|discriminate].
    unfold bind at 1.
    pose proof (show_nutrition_raise E nutr w2) as H4.
    destruct (show_nutrition E nutr w2) as [w3 [[]|e4]]; cbn [snd] in *.
    + destruct (recommend_run E b (dog_info_dict f) nutr (app_password_input f) w3)
        as (w' & -> & _). discriminate.
    + intros H. inversion H; subst.
      destruct (proj1 (H4 e) eq_refl) as (Hd & He).
      split; [reflexivity|]. right. exists w1, b, w2, nutr. rewrite Hc. cbn [fst].
      auto 10.
  - intros (Hsub & [Hres|(w1 & b & w2 & nutr & Hres & Hb & Hf & Ht & Hd & He)]).
    + rewrite Hsub. unfold bind at 1.
      destruct (resolve_barcode E f w) as [w1 r1]. cbn [snd] in *. now subst r1.
    + rewrite Hsub. unfold bind at 1. rewrite Hres. cbn [opt_truthy]. rewrite Hb.
      unfold process_barcode. unfold bind at 1.
      pose proof (check_dog_details_ok f w1) as H2.
      destruct (check_dog_details f w1) as [wc rc]. cbn [fst snd] in *. subst rc.
      unfold bind at 1. rewrite Hf, Ht. unfold bind at 1.
      pose proof (proj2 (show_nutrition_raise E nutr w2 e) (conj Hd He)) as H4.
      destruct (show_nutrition E nutr w2) as [w3 r3]. cbn [snd] in *.
      now subst r3.
Qed.

Lemma on_submit_only_fault_witness :
  exists e,
    snd (on_submit
           (example_env (Raise unidentified_image) []
              (Ok (example_response 200 (Ok odd_body)))
              (Ok two_lines) posix (py "s3cret"))
           (example_form (py "s3cret")) world0) = Raise e /\
    e = no_attribute (JStr (py "kibble")) (py "items").
Proof.
  eexists. split; [reflexivity|].
  destruct (proj1 (on_submit_only_fault
                     (example_env (Raise unidentified_image) []
                        (Ok (example_response 200 (Ok odd_body)))
                        (Ok two_lines) posix (py "s3cret"))
                     (example_form (py "s3cret")) world0 _) eq_refl)
    as (_ & [Hres|(w1 & b & w2 & nutr & _ & _ & Hf & _ & _ & He)]).
  - vm_compute in Hres. discriminate Hres.
  - vm_compute in Hf. inversion Hf; subst. exact He.
Defined.

(** The result of the lookup does not depend on what went before. *)
Lemma get_nutrition_data_result_any_world (E : env) (s : Py.str) (w w' : world) :
  snd (get_nutrition_data E (OStr s) w) = snd (get_nutrition_data E (OStr s) w').
Proof.
  rewrite !get_nutrition_data_cases. cbv zeta. unfold lookup_except.
  destruct (requests_get E _ _) as [r|e].
  - destruct (raise_for_status r) as [[]|e].
    + destruct (json_body r) as [data|e].
      * destruct (json_get data _) as [st|e].
        -- destruct (json_eq_int st 1 && json_contains data _); [|reflexivity].
           destruct (json_getitem data _) as [p|e]; [reflexivity|].
           destruct (is_RequestException e); [reflexivity|].
           destruct (is_JSONDecodeError e); reflexivity.
        -- destruct (is_RequestException e); [reflexivity|].
           destruct (is_JSONDecodeError e); reflexivity.
      * destruct (is_RequestException e); [reflexivity|].
        destruct (is_JSONDecodeError e); reflexivity.
    + destruct (is_RequestException e); [reflexivity|].
      destruct (is_JSONDecodeError e); reflexivity.
  - destruct (is_RequestException e); [reflexivity|].
    destruct (is_JSONDecodeError e); reflexivity.
Qed.

Lemma resolve_barcode_manual (E : env) (f : form) (w : world) :
  uploaded_file f = None ->
  camera_photo f = None ->
  Py.truthy (manual_barcode f) = true ->
  resolve_barcode E f w =
    (with_event (StSuccess (py "Using Manual Barcode: " ++ manual_barcode f))
       (with_event (StSpinner (py "Processing barcode input...")) w),
     Ok (Some (manual_barcode f))).
Proof.
  intros Hup Hcam Hb. unfold resolve_barcode. rewrite Hup, Hcam, Hb.
  reflexivity.
Qed.

(** What the lookup step of a submission hands on: the result of
    [get_nutrition_data], or [None] when that raises. *)
Lemma fetch_nutrition_result (E : env) (b : Py.str) (w0 w : world) :
  snd (fetch_nutrition E b w) =
  Ok (match snd (get_nutrition_data E (OStr b) w0) with
      | Ok nutr => nutr
      | Raise _ => JNull
      end).
Proof.
  unfold fetch_nutrition. unfold bind at 1. unfold emit at 1.
  unfold try_except.
  set (w1 := {| events := _ :: events w; tmpfiles := tmpfiles w |}).
  rewrite (get_nutrition_data_result_any_world E b w0 w1).
  destruct (get_nutrition_data E (OStr b) w1) as [w2 [nutr|e]]; reflexivity.
Qed.

(** X17.  When the lookup of a typed barcode gives nothing usable (it
    raises, or it returns [None], an empty record or another false
    value), the submission reports that no nutrition information was
    found and ends without an exception; the model is not called, even
    with the right password. *)
Theorem unusable_lookup_is_not_found (E : env) (f : form) (w : world) :
  submit_button f = true ->
  uploaded_file f = None ->
  camera_photo f = None ->
  manual_barcode f <> [] ->
  match snd (get_nutrition_data E (OStr (manual_barcode f)) w) with
  | Ok nutr => json_truthy nutr = false
  | Raise _ => True
  end ->
  exists w' older,
    on_submit E f w = (w', Ok tt) /\
    events w' =
      StError (py "Could not find nutrition information for barcode: "
               ++ manual_barcode f) :: older /\
    ai_calls w' = ai_calls w.
Proof.
  intros Hsub Hup Hcam Hb Hlook. apply truthy_nonempty in Hb.
  unfold on_submit. rewrite Hsub. unfold bind at 1.
  rewrite (resolve_barcode_manual E f w Hup Hcam Hb).
  cbn [opt_truthy]. rewrite Hb.
  set (wm := with_event _ (with_event _ w)).
  assert (Hm : observed wm = observed w) by reflexivity.
  unfold process_barcode. unfold bind at 1.
  pose proof (check_dog_details_ok f wm) as Hok.
  pose proof (silent_check_dog_details f wm) as Hc.
  destruct (check_dog_details f wm) as [wc rc]. cbn [fst snd] in *. subst rc.
  unfold bind at 1.
  pose proof (fetch_nutrition_result E (manual_barcode f) w wc) as Hr.
  pose proof (silent_fetch_nutrition E (manual_barcode f) wc) as Hf.
  destruct (fetch_nutrition E (manual_barcode f) wc) as [w2 r2].
  cbn [fst snd] in *. subst r2.
  assert (Hfalse : json_truthy
            (match snd (get_nutrition_data E (OStr (manual_barcode f)) w) with
             | Ok nutr => nutr
             | Raise _ => JNull
             end) = false).
  { destruct (snd (get_nutrition_data E (OStr (manual_barcode f)) w));
      [exact Hlook|reflexivity]. }
  rewrite Hfalse. unfold emit.
  eexists _, _. split; [reflexivity|]. split; [reflexivity|].
  unfold ai_calls. f_equal.
  transitivity (observed w2); [reflexivity|congruence].
Qed.

Lemma unusable_lookup_is_not_found_witness :
  exists w' older,
    on_submit (example_env (Raise unidentified_image) []
                 (Ok (example_response 200 (Ok bare_body)))
                 (Ok two_lines) posix (py "s3cret"))
              (example_form (py "s3cret")) world0 = (w', Ok tt) /\
    events w' =
      StError (py "Could not find nutrition information for barcode: "
               ++ py "0000000000123") :: older /\
    ai_calls w' = [].
Proof.
  apply (unusable_lookup_is_not_found
           (example_env (Raise unidentified_image) []
              (Ok (example_response 200 (Ok bare_body)))
              (Ok two_lines) posix (py "s3cret"))
           (example_form (py "s3cret")) world0);
    try reflexivity.
  vm_compute. discriminate.
Defined.

(** X18.  What is shown of a record.  Pandas is handed exactly the fields
    of the record whose value is not [None].  When it builds a table from
    them, what is shown are the rows it built, the [schema_version] row
    left out, each value as a string.  When it fails, the error is shown
    with those fields raw, [schema_version] included. *)
Theorem show_nutrition_fields
    (E : env) (d : list (Py.str * json)) (w : world) :
  (forall k v, In (k, v) (fields_with_value d) <-> In (k, v) d /\ v <> JNull) /\
  (forall built,
     pd_DataFrame E (fields_with_value d) = Ok built ->
     exists rows,
       events (fst (show_nutrition E (JDict d) w)) =
         StDataframe rows :: StSubheader (py "Nutrition Information") :: events w /\
       forall k c,
         In (k, c) rows <->
         exists v, In (k, v) built /\ k <> py "schema_version" /\
                   c = str_json E v) /\
  (forall e,
     pd_DataFrame E (fields_with_value d) = Raise e ->
     events (fst (show_nutrition E (JDict d) w)) =
       StJson (fields_with_value d)
       :: StError (py "Could not display nutrition data as table: " ++ exc_msg e)
       :: StSubheader (py "Nutrition Information") :: events w).
Proof.
  split; [|split].
  - intros k v. unfold fields_with_value. rewrite filter_In. cbn [snd].
    destruct v; split; intros (H1 & H2); split; auto; try discriminate;
      now elim H2.
  - intros built Hpd. unfold show_nutrition. run_monad. cbn [json_items].
    fold (fields_with_value d). rewrite Hpd. cbn [fst events].
    eexists. split; [reflexivity|].
    intros k c. rewrite in_map_iff. split.
    + intros ([k' v] & Heq & Hin). cbn [fst snd] in Heq. inversion Heq; subst.
      apply filter_In in Hin as (Hin & Hk). cbn [fst] in Hk.
      exists v. repeat split; auto.
      intros ->. now rewrite str_eqb_refl in Hk.
    + intros (v & Hin & Hk & ->). exists (k, v). split; [reflexivity|].
      apply filter_In. split; [exact Hin|]. cbn [fst].
      destruct (Py.str_eqb k (py "schema_version")) eqn:Heq; [|reflexivity].
      apply str_eqb_eq in Heq. contradiction.
  - intros e Hpd. unfold show_nutrition. run_monad. cbn [json_items].
    fold (fields_with_value d). rewrite Hpd. reflexivity.
Qed.

Lemma show_nutrition_fields_witness :
  exists rows,
    events (fst (show_nutrition (lookup_env (Raise not_json))
                   (JDict test_kibble) world0)) =
      [StDataframe rows; StSubheader (py "Nutrition Information")] /\
    (In (py "product_name", py "Test Kibble") rows <->
     exists v, In (py "product_name", v) (fields_with_value test_kibble) /\
               py "product_name" <> py "schema_version" /\
               py "Test Kibble" = str_json (lookup_env (Raise not_json)) v).
Proof.
  destruct (proj1 (proj2 (show_nutrition_fields (lookup_env (Raise not_json))
                            test_kibble world0))
              (fields_with_value test_kibble) eq_refl)
    as (rows & Hev & Hrows).
  exists rows. split; [exact Hev|apply Hrows].
Defined.

(* ================================================================== *)
(** ** The dog's details and the log record *)

Lemma lstrip_space_head (s : Py.str) : no_space_at_head (Py.lstrip_space s).
Proof.
  induction s as [|c t IH]; [exact I|].
  cbn [Py.lstrip_space]. destruct (Py.isspace c) eqn:Hc; [exact IH|exact Hc].
Qed.

Lemma lstrip_space_suffix (s : Py.str) :
  exists p, s = p ++ Py.lstrip_space s.
Proof.
  induction s as [|c t (p & IH)]; [now exists []|].
  cbn [Py.lstrip_space]. destruct (Py.isspace c).
  - exists (c :: p). cbn [app]. now rewrite <- IH.
  - now exists [].
Qed.

Lemma strip_trimmed (s : Py.str) : trimmed (Py.strip s).
Proof.
  unfold trimmed, Py.strip. rewrite rev_involutive.
  split; [|apply lstrip_space_head].
  pose proof (lstrip_space_head s) as Hhead.
  destruct (lstrip_space_suffix (rev (Py.lstrip_space s))) as (p & Hp).
  apply (f_equal (@rev Py.char)) in Hp. rewrite rev_involutive, rev_app_distr in Hp.
  destruct (rev (Py.lstrip_space (rev (Py.lstrip_space s)))) as [|c u];
    [exact I|].
  rewrite Hp in Hhead. exact Hhead.
Qed.

(** X19.  Every allergy handed to the model and to the log is one of the
    comma-separated pieces of the text entered, without white space around
    it, and is not empty; a blank field gives no allergy at all. *)
Theorem allergies_are_trimmed (f : form) :
  (forall a, In a (allergies (dog_info_dict f)) ->
     a <> [] /\ trimmed a /\
     exists piece, In piece (Py.split 44%N (dog_allergies_str f)) /\
                   a = Py.strip piece) /\
  (dog_allergies_str f = [] -> allergies (dog_info_dict f) = []).
Proof.
  split.
  - intros a Ha. cbn [dog_info_dict allergies] in Ha.
    apply in_map_iff in Ha as (piece & <- & Hin).
    apply filter_In in Hin as (Hin & Ht).
    split; [now apply truthy_nonempty|]. split; [apply strip_trimmed|].
    now exists piece.
  - intros H. cbn [dog_info_dict allergies]. rewrite H. reflexivity.
Qed.

Lemma allergies_are_trimmed_witness :
  allergies (dog_info_dict (example_form [])) = [py "chicken"; py "beef"] /\
  py "beef" <> [] /\ trimmed (py "beef").
Proof.
  split; [vm_compute; reflexivity|].
  destruct (proj1 (allergies_are_trimmed (example_form [])) (py "beef"))
    as (H1 & H2 & _).
  - vm_compute. right. left. reflexivity.
  - split; assumption.
Defined.

Lemma replace_from_absent (old new s : Py.str) :
  Py.contains old s = false -> Py.replace_from old new s 0 = s.
Proof.
  induction s as [|c t IH]; [reflexivity|].
  cbn [Py.contains Py.replace_from]. intros H.
  apply orb_false_iff in H as [H1 H2]. rewrite H1. now rewrite (IH H2).
Qed.

(** X20.  A recommendation in which the line separator of the platform
    does not occur is written to the log word for word, after the same
    head as any other. *)
Theorem log_message_without_separator
    (E : env) (b : Py.str) (dog : dog_info) (nutr : json) (text : Py.str) :
  Py.contains (os_linesep (os_platform E)) text = false ->
  log_message E b dog nutr text = log_message E b dog nutr [] ++ text.
Proof.
  intros H. unfold log_message.
  assert (H0 : Py.replace [] (os_linesep (os_platform E)) (py " ") = []).
  { destruct (os_platform E); reflexivity. }
  assert (H1 : Py.replace text (os_linesep (os_platform E)) (py " ") = text).
  { destruct (os_platform E); cbn [os_linesep Py.replace] in *;
      now apply replace_from_absent. }
  rewrite H0, H1, app_nil_r, <- !app_assoc. reflexivity.
Qed.

Lemma log_message_without_separator_witness :
  log_message (lookup_env (Raise not_json)) (py "123")
              (dog_info_dict (example_form [])) JNull (py "Feed 200 g a day.") =
  log_message (lookup_env (Raise not_json)) (py "123")
              (dog_info_dict (example_form [])) JNull []
  ++ py "Feed 200 g a day.".
Proof.
  apply log_message_without_separator. vm_compute. reflexivity.
Defined.

Lemma replace_from_newline_map (text : Py.str) :
  Py.replace_from [10%N] [32%N] text 0 = flatten_newlines text.
Proof.
  induction text as [|c t IH]; [reflexivity|].
  cbn [Py.replace_from Py.startswith List.length Nat.sub app flatten_newlines
       List.map].
  rewrite andb_true_r, IH, N.eqb_sym. destruct (N.eqb c 10); reflexivity.
Qed.

(** X21.  Where the line separator is the newline character, the
    recommendation is logged with each newline turned into one space and
    every other character as it is, so with its length unchanged. *)
Theorem log_flattening_on_posix (E : env) (text : Py.str) :
  os_platform E = posix ->
  Py.replace text (os_linesep (os_platform E)) (py " ") = flatten_newlines text /\
  List.length (Py.replace text (os_linesep (os_platform E)) (py " ")) =
    List.length text.
Proof.
  intros H. rewrite H.
  change (Py.replace text (os_linesep posix) (py " "))
    with (Py.replace_from [10%N] [32%N] text 0).
  rewrite replace_from_newline_map. split; [reflexivity|].
  unfold flatten_newlines. apply length_map.
Qed.

Lemma log_flattening_on_posix_witness :
  Py.replace two_lines (os_linesep posix) (py " ") = py "Feed 200 g twice a day".
Proof.
  exact (proj1 (log_flattening_on_posix (lookup_env (Raise not_json)) two_lines
                  eq_refl)).
Defined.
